(** * MeasureIt meters: a shallow embedding of [custom_components/measureit/meter.py]

    The three meters of the integration ([CounterMeter], [SourceMeter],
    [TimeMeter]) are Python objects that are mutated in place and whose
    methods may raise in the middle of a body.  Every method is embedded as
    a computation in a small state-and-exception monad: a raised exception
    stops the body but keeps the assignments already performed, exactly as
    an attribute store followed by a failing expression does in Python.

    Values of Python's [decimal.Decimal] are kept abstract behind the
    interface [DecimalOps]: the operations the module uses, and for [+]
    and [-] the signal the context traps, which Python raises as an
    exception.  All general theorems hold for every implementation of
    that interface.  The instance [PyDecimal] implements finite decimals
    under the default context and is used to run the concrete
    scenarios. *)

From Stdlib Require Import ZArith NArith Bool List.
From stdpp Require Import base strings gmap.

Local Open Scope Z_scope.

(** ** Decimal arithmetic *)

(** The signals that the default context traps and that [+] and [-] can
    give: [decimal.InvalidOperation] (a signalling NaN, or the difference
    of two equal infinities) and [decimal.Overflow] (a result beyond
    Emax). *)
Inductive DecimalSignal : Type :=
| InvalidOperation
| Overflow.

(** The operations of [decimal.Decimal] that [meter.py] relies on.
    [dec_add_traps x y] is the signal on which [x + y] raises, if there is
    one; [dec_add x y] is the result when there is none.  The same for
    [-]. *)
Class DecimalOps (D : Type) := {
  Decimal_of_int : Z -> D;      (* Decimal(n) for a Python int n *)
  dec_add : D -> D -> D;        (* x + y *)
  dec_sub : D -> D -> D;        (* x - y *)
  dec_bool : D -> bool;         (* bool(x), the truth value used by [if x:] *)
  dec_add_traps : D -> D -> option DecimalSignal;
  dec_sub_traps : D -> D -> option DecimalSignal
}.

(** Finite decimals under Python's default context: precision 28,
    rounding ROUND_HALF_EVEN, Emax 999999, Emin -999999, and the traps
    InvalidOperation, DivisionByZero and Overflow.  A number is sign,
    coefficient and exponent ([_sign], [_int], [_exp] in the library).
    NaN and the infinities are not values of this instance, so the only
    signal its [+] and [-] can raise is Overflow. *)
Module PyDecimal.

Record t := mk { sign : bool; coefficient : N; exponent : Z }.

Definition prec : nat := 28.
Definition Emax : Z := 999999.
Definition Emin : Z := -999999.
(* Context.Etiny(): the least exponent of a result *)
Definition Etiny : Z := Emin - Z.of_nat prec + 1.

(* Decimal(n): exact, exponent 0 *)
Definition of_int (n : Z) : t := mk (n <? 0) (Z.abs_N n) 0.

Definition is_zero (x : t) : bool := (coefficient x =? 0)%N.

(* Decimal.__bool__ *)
Definition to_bool (x : t) : bool := negb (is_zero x).

Definition signed (x : t) : Z :=
  if sign x then - Z.of_N (coefficient x) else Z.of_N (coefficient x).

Fixpoint digits_fuel (fuel : nat) (n : N) : nat :=
  match fuel with
  | O => 1%nat
  | S f => if (n <? 10)%N then 1%nat else S (digits_fuel f (n / 10)%N)
  end.

(* len(str(n)) *)
Definition digits (n : N) : nat := digits_fuel (N.to_nat (N.size n)) n.

(* Decimal._fix, the value it returns: a zero has its exponent brought
   into [Etiny, Emax]; another number keeps at most [prec] digits of its
   coefficient and no digit below Etiny, rounding half to even. *)
Definition fix_ (x : t) : t :=
  if is_zero x
  then mk (sign x) 0 (Z.min (Z.max (exponent x) Etiny) Emax)
  else
    let n := Z.of_nat (digits (coefficient x)) in
    let k := Z.max (n - Z.of_nat prec) (Etiny - exponent x) in
    if k <=? 0 then x
    else
      let p := (10 ^ Z.to_N k)%N in
      let q := (coefficient x / p)%N in
      let r := (coefficient x mod p)%N in
      let q' := match (2 * r ?= p)%N with
                | Gt => (q + 1)%N
                | Eq => if N.odd q then (q + 1)%N else q
                | Lt => q
                end in
      if (q' =? 10 ^ N.of_nat prec)%N
      then mk (sign x) (q' / 10)%N (exponent x + k + 1)
      else mk (sign x) q' (exponent x + k).

(* the sum before [_fix]: exact, at the smaller of the two exponents *)
Definition exact_sum (x y : t) : t :=
  let e := Z.min (exponent x) (exponent y) in
  if is_zero x && is_zero y then mk (sign x && sign y) 0 e
  else
    let v := signed x * 10 ^ (exponent x - e)
             + signed y * 10 ^ (exponent y - e) in
    mk (v <? 0) (Z.abs_N v) e.

(* Decimal.__add__, its result *)
Definition add (x y : t) : t := fix_ (exact_sum x y).

(* Decimal.adjusted(): the exponent of the leading digit *)
Definition adjusted (x : t) : Z :=
  exponent x + Z.of_nat (digits (coefficient x)) - 1.

(* Decimal.__add__, its trap: [_fix] signals Overflow when the rounded
   result is not zero and its leading digit lies above Emax *)
Definition add_traps (x y : t) : option DecimalSignal :=
  let r := add x y in
  if negb (is_zero r) && (Emax <? adjusted r) then Some Overflow else None.

(* Decimal.copy_negate *)
Definition copy_negate (x : t) : t :=
  mk (negb (sign x)) (coefficient x) (exponent x).

(* Decimal.__sub__: self + other.copy_negate() *)
Definition sub (x y : t) : t := add x (copy_negate y).
Definition sub_traps (x y : t) : option DecimalSignal :=
  add_traps x (copy_negate y).

(* Decimal.__eq__: numeric comparison *)
Definition eqb (x y : t) : bool :=
  let e := Z.min (exponent x) (exponent y) in
  signed x * 10 ^ (exponent x - e) =? signed y * 10 ^ (exponent y - e).

(* a decimal that [_fix] leaves alone as far as rounding goes: at most
   [prec] digits, none below Etiny; every result of [+] and [-] is one *)
Definition fixed (x : t) : Prop :=
  (digits (coefficient x) <= prec)%nat /\ Etiny <= exponent x.

End PyDecimal.

#[export] Instance PyDecimal_ops : DecimalOps PyDecimal.t := {
  Decimal_of_int := PyDecimal.of_int;
  dec_add := PyDecimal.add;
  dec_sub := PyDecimal.sub;
  dec_bool := PyDecimal.to_bool;
  dec_add_traps := PyDecimal.add_traps;
  dec_sub_traps := PyDecimal.sub_traps
}.

(** ** Python runtime: exceptions, method bodies, dictionaries *)

Inductive exn : Type :=
| TypeError                 (* unsupported operand, or Decimal(None) *)
| KeyError (key : string)   (* data[key] on a missing key *)
| DecimalException (signal : DecimalSignal).
                            (* decimal.InvalidOperation, decimal.Overflow *)

(** How a call ends: it returns a value or an exception propagates. *)
Inductive Completion (A : Type) : Type :=
| Normal (a : A)
| Raised (e : exn).
Arguments Normal {A} a.
Arguments Raised {A} e.

(** A method body over an object (or world) of type [S]: it yields its
  completion together with the object as the body left it. *)
Definition Exec (S A : Type) : Type := S -> Completion A * S.

Section Exec.
Context {S : Type}.

Definition ret {A} (a : A) : Exec S A := fun s => (Normal a, s).

Definition bind {A B} (c : Exec S A) (k : A -> Exec S B) : Exec S B :=
  fun s => match c s with
           | (Normal a, s') => k a s'
           | (Raised e, s') => (Raised e, s')
           end.

Definition raise {A} (e : exn) : Exec S A := fun s => (Raised e, s).

(* read an attribute *)
Definition gets {A} (f : S -> A) : Exec S A := fun s => (Normal (f s), s).

(* store an attribute *)
Definition modify (f : S -> S) : Exec S unit := fun s => (Normal tt, f s).

(* [if b: body] *)
Definition when (b : bool) (body : Exec S unit) : Exec S unit :=
  if b then body else ret tt.

(* run a body on a part [T] of the object, e.g. [super().m()] *)
Definition zoom {T A} (get : S -> T) (set : T -> S -> S)
    (c : Exec T A) : Exec S A :=
  fun s => let (r, t') := c (get s) in (r, set t' s).

End Exec.

Declare Scope exec_scope.
Delimit Scope exec_scope with exec.
Notation "x <- c ;; k" := (bind c (fun x => k))
  (at level 100, c at next level, k at level 200, right associativity,
   only parsing) : exec_scope.
Notation "c ;; k" := (bind c (fun _ => k))
  (at level 100, k at level 200, right associativity, only parsing)
  : exec_scope.
Local Open Scope exec_scope.

(** The object as the call left it; [fst] of the same pair tells how the
  call ended. *)
Definition state_after {S A} (r : Completion A * S) : S := snd r.

(** Values found in a meter dictionary: the decimals and the flag written
  by [to_dict], and [None] for an unknown source reading. *)
Inductive PyValue (D : Type) : Type :=
| VDecimal (d : D)
| VBool (b : bool)
| VNone.
Arguments VDecimal {D} d.
Arguments VBool {D} b.
Arguments VNone {D}.

Section PyOps.
Context {D : Type} `{!DecimalOps D} {S : Type}.

(* x - y on possibly absent operands: None has no arithmetic, and on two
   decimals the context raises the signal it traps *)
Definition py_sub (x y : option D) : Exec S D :=
  match x, y with
  | Some a, Some b =>
      match dec_sub_traps a b with
      | Some signal => raise (DecimalException signal)
      | None => ret (dec_sub a b)
      end
  | _, _ => raise TypeError
  end.

(* x + y *)
Definition py_add (x y : option D) : Exec S D :=
  match x, y with
  | Some a, Some b =>
      match dec_add_traps a b with
      | Some signal => raise (DecimalException signal)
      | None => ret (dec_add a b)
      end
  | _, _ => raise TypeError
  end.

(* data[key] *)
Definition getitem (data : gmap string (PyValue D)) (key : string)
    : Exec S (PyValue D) :=
  match data !! key with
  | Some v => ret v
  | None => raise (KeyError key)
  end.

(* Decimal(v): a decimal is copied, a bool is an int, None is refused *)
Definition Decimal (v : PyValue D) : Exec S D :=
  match v with
  | VDecimal d => ret d
  | VBool b => ret (Decimal_of_int (if b then 1 else 0))
  | VNone => raise TypeError
  end.

(* bool(v) *)
Definition py_bool (v : PyValue D) : bool :=
  match v with
  | VDecimal d => dec_bool d
  | VBool b => b
  | VNone => false
  end.

(* a possibly absent decimal as a dictionary value *)
Definition of_optional (x : option D) : PyValue D :=
  match x with Some d => VDecimal d | None => VNone end.

(* [if x:] on a possibly absent decimal *)
Definition truthy (x : option D) : bool :=
  match x with Some d => dec_bool d | None => false end.

End PyOps.

(** ** [class MeasureItMeter]: the fields and the dictionary form shared by
  all meters.  Its [start], [stop], [update] and [reset] only raise
  NotImplementedError and are overridden by each concrete meter. *)
Module MeasureItMeter.
Section WithDecimal.
Context {D : Type} `{!DecimalOps D}.

Record t : Type := mk {
  _measured_value : D;
  _prev_measured_value : D;
  _measuring : bool
}.

(* __init__ *)
Definition init : t := mk (Decimal_of_int 0) (Decimal_of_int 0) false.

Definition set_measured_value (v : D) (m : t) : t :=
  mk v (_prev_measured_value m) (_measuring m).
Definition set_prev_measured_value (v : D) (m : t) : t :=
  mk (_measured_value m) v (_measuring m).
Definition set_measuring (b : bool) (m : t) : t :=
  mk (_measured_value m) (_prev_measured_value m) b.

Definition to_dict (m : t) : gmap string (PyValue D) :=
  <["measuring" := VBool (_measuring m)]>
  (<["prev_measured_value" := VDecimal (_prev_measured_value m)]>
  (<["measured_value" := VDecimal (_measured_value m)]> ∅)).

Definition from_dict (data : gmap string (PyValue D)) : Exec t unit :=
  v <- getitem data "measured_value" ;;
  d <- Decimal v ;;
  modify (set_measured_value d) ;;
  v <- getitem data "prev_measured_value" ;;
  d <- Decimal v ;;
  modify (set_prev_measured_value d) ;;
  v <- getitem data "measuring" ;;
  modify (set_measuring (py_bool v)).

End WithDecimal.
Arguments t D : clear implicits.
End MeasureItMeter.

(** ** [class CounterMeter] *)
Module CounterMeter.
Section WithDecimal.
Context {D : Type} `{!DecimalOps D}.

Record t : Type := mk { base : MeasureItMeter.t D }.

Definition set_base (b : MeasureItMeter.t D) (m : t) : t := mk b.
Definition super {A} (c : Exec (MeasureItMeter.t D) A) : Exec t A :=
  zoom base set_base c.

Definition measured_value (m : t) : D := MeasureItMeter._measured_value (base m).
Definition prev_measured_value (m : t) : D :=
  MeasureItMeter._prev_measured_value (base m).
Definition measuring (m : t) : bool := MeasureItMeter._measuring (base m).

Definition init : t := mk MeasureItMeter.init.

Definition start : Exec t unit :=
  super (modify (MeasureItMeter.set_measuring true)).

Definition stop : Exec t unit :=
  super (modify (MeasureItMeter.set_measuring false)).

Definition update (value : option D) : Exec t unit :=
  m <- gets measuring ;;
  when m (
    cur <- gets measured_value ;;
    v <- py_add (Some cur) value ;;
    super (modify (MeasureItMeter.set_measured_value v))).

Definition reset : Exec t unit :=
  cur <- gets measured_value ;;
  super (modify (MeasureItMeter.set_prev_measured_value cur)) ;;
  super (modify (MeasureItMeter.set_measured_value (Decimal_of_int 0))).

Definition to_dict (m : t) : gmap string (PyValue D) :=
  MeasureItMeter.to_dict (base m).

Definition from_dict (data : gmap string (PyValue D)) : Exec t unit :=
  super (MeasureItMeter.from_dict data).

End WithDecimal.
Arguments t D : clear implicits.
End CounterMeter.

(** ** [class SourceMeter]

  [_source_value] is the constructor argument, a decimal or [None];
  [start] copies it into [_session_start_value], so that one may be
  [None] as well.  [_session_total] does not exist before the first
  [stop] or [update] that computes it. *)
Module SourceMeter.
Section WithDecimal.
Context {D : Type} `{!DecimalOps D}.

Record t : Type := mk {
  base : MeasureItMeter.t D;
  _session_start_value : option D;
  _session_start_measured_value : D;
  _source_value : option D;
  _session_total : option D
}.

Definition set_base (b : MeasureItMeter.t D) (m : t) : t :=
  mk b (_session_start_value m) (_session_start_measured_value m)
     (_source_value m) (_session_total m).
Definition set_session_start_value (v : option D) (m : t) : t :=
  mk (base m) v (_session_start_measured_value m)
     (_source_value m) (_session_total m).
Definition set_session_start_measured_value (v : D) (m : t) : t :=
  mk (base m) (_session_start_value m) v
     (_source_value m) (_session_total m).
Definition set_source_value (v : option D) (m : t) : t :=
  mk (base m) (_session_start_value m) (_session_start_measured_value m)
     v (_session_total m).
Definition set_session_total (v : D) (m : t) : t :=
  mk (base m) (_session_start_value m) (_session_start_measured_value m)
     (_source_value m) (Some v).

Definition super {A} (c : Exec (MeasureItMeter.t D) A) : Exec t A :=
  zoom base set_base c.

Definition measured_value (m : t) : D := MeasureItMeter._measured_value (base m).
Definition prev_measured_value (m : t) : D :=
  MeasureItMeter._prev_measured_value (base m).
Definition measuring (m : t) : bool := MeasureItMeter._measuring (base m).

(* __init__(source_value) *)
Definition init (source_value : option D) : t :=
  mk MeasureItMeter.init (Some (Decimal_of_int 0)) (Decimal_of_int 0)
     source_value None.

Definition start : Exec t unit :=
  super (modify (MeasureItMeter.set_measuring true)) ;;
  src <- gets _source_value ;;
  modify (set_session_start_value src) ;;
  cur <- gets measured_value ;;
  modify (set_session_start_measured_value cur).

Definition stop : Exec t unit :=
  super (modify (MeasureItMeter.set_measuring false)) ;;
  src <- gets _source_value ;;
  ssv <- gets _session_start_value ;;
  total <- py_sub src ssv ;;
  modify (set_session_total total) ;;
  ssmv <- gets _session_start_measured_value ;;
  v <- py_add (Some ssmv) (Some total) ;;
  super (modify (MeasureItMeter.set_measured_value v)).

Definition update (value : option D) : Exec t unit :=
  modify (set_source_value value) ;;
  m <- gets measuring ;;
  when m (
    src <- gets _source_value ;;
    ssv <- gets _session_start_value ;;
    total <- py_sub src ssv ;;
    modify (set_session_total total) ;;
    ssmv <- gets _session_start_measured_value ;;
    v <- py_add (Some ssmv) (Some total) ;;
    super (modify (MeasureItMeter.set_measured_value v))).

Definition reset : Exec t unit :=
  m <- gets measuring ;;
  if m then
    stop ;;
    cur <- gets measured_value ;;
    super (modify (MeasureItMeter.set_prev_measured_value cur)) ;;
    super (modify (MeasureItMeter.set_measured_value (Decimal_of_int 0))) ;;
    start
  else
    cur <- gets measured_value ;;
    super (modify (MeasureItMeter.set_prev_measured_value cur)) ;;
    super (modify (MeasureItMeter.set_measured_value (Decimal_of_int 0))).

Definition to_dict (m : t) : gmap string (PyValue D) :=
  let data := MeasureItMeter.to_dict (base m) in
  <["source_value" := of_optional (_source_value m)]>
  (<["session_start_measured_value" :=
       VDecimal (_session_start_measured_value m)]>
  (<["session_start_value" := of_optional (_session_start_value m)]>
  data)).

Definition from_dict (data : gmap string (PyValue D)) : Exec t unit :=
  super (MeasureItMeter.from_dict data) ;;
  v <- getitem data "session_start_value" ;;
  d <- Decimal v ;;
  modify (set_session_start_value (Some d)) ;;
  v <- getitem data "session_start_measured_value" ;;
  d <- Decimal v ;;
  modify (set_session_start_measured_value d) ;;
  src <- gets _source_value ;;
  if truthy src then
    update src
  else
    v <- getitem data "source_value" ;;
    d <- Decimal v ;;
    modify (set_source_value (Some d)).

(* the signal raised by [ssmv + (src - ssv)], if there is one *)
Definition session_signal (ssmv ssv src : D) : option DecimalSignal :=
  match dec_sub_traps src ssv with
  | Some signal => Some signal
  | None => dec_add_traps ssmv (dec_sub src ssv)
  end.

(* [_session_start_measured_value + (_source_value - _session_start_value)]
   as [stop] and [update] compute it: the value, or the exception raised
   when a reading is absent or the arithmetic signals *)
Definition session_value (m : t) : exn + D :=
  match _source_value m, _session_start_value m with
  | Some src, Some ssv =>
      match session_signal (_session_start_measured_value m) ssv src with
      | Some signal => inl (DecimalException signal)
      | None =>
          inr (dec_add (_session_start_measured_value m) (dec_sub src ssv))
      end
  | _, _ => inl TypeError
  end.

End WithDecimal.
Arguments t D : clear implicits.
End SourceMeter.

(** ** [class TimeMeter]

  [get_timestamp] reads the wall clock.  The clock is part of the world
  the meter runs in: [utcnow w k] is the value returned by the [k]-th
  reading from now on, so time may pass between any two readings.  A
  test clock frozen at [t] is the constant stream.

  A [TimeMeter] is given no decimal by its caller: it computes on clock
  readings (timestamps in seconds) and on sums and differences of them.
  On these the context signals nothing, and the arithmetic of this
  class is taken without a raise. *)
Module TimeMeter.
Section WithDecimal.
Context {D : Type} `{!DecimalOps D}.

Record t : Type := mk {
  base : MeasureItMeter.t D;
  _session_start_value : D;
  _session_start_measured_value : D;
  _session_total : option D
}.

Record World : Type := mkWorld {
  meter : t;
  utcnow : nat -> D
}.

Definition set_base (b : MeasureItMeter.t D) (m : t) : t :=
  mk b (_session_start_value m) (_session_start_measured_value m)
     (_session_total m).
Definition set_session_start_value (v : D) (m : t) : t :=
  mk (base m) v (_session_start_measured_value m) (_session_total m).
Definition set_session_start_measured_value (v : D) (m : t) : t :=
  mk (base m) (_session_start_value m) v (_session_total m).
Definition set_session_total (v : D) (m : t) : t :=
  mk (base m) (_session_start_value m) (_session_start_measured_value m)
     (Some v).
Definition set_meter (m : t) (w : World) : World := mkWorld m (utcnow w).

Definition super {A} (c : Exec (MeasureItMeter.t D) A) : Exec t A :=
  zoom base set_base c.
(* a body that only touches the object *)
Definition self {A} (c : Exec t A) : Exec World A := zoom meter set_meter c.

Definition measured_value (m : t) : D := MeasureItMeter._measured_value (base m).
Definition prev_measured_value (m : t) : D :=
  MeasureItMeter._prev_measured_value (base m).
Definition measuring (m : t) : bool := MeasureItMeter._measuring (base m).

Definition init : t :=
  mk MeasureItMeter.init (Decimal_of_int 0) (Decimal_of_int 0) None.

(* the meter in a world whose clock is frozen at [now] *)
Definition at_time (now : D) (m : t) : World := mkWorld m (fun _ => now).

Definition get_timestamp : Exec World D :=
  fun w => (Normal (utcnow w 0%nat),
            mkWorld (meter w) (fun k => utcnow w (S k))).

Definition start : Exec World unit :=
  self (super (modify (MeasureItMeter.set_measuring true))) ;;
  now <- get_timestamp ;;
  self (modify (set_session_start_value now)) ;;
  cur <- self (gets measured_value) ;;
  self (modify (set_session_start_measured_value cur)).

Definition stop : Exec World unit :=
  self (super (modify (MeasureItMeter.set_measuring false))) ;;
  now <- get_timestamp ;;
  ssv <- self (gets _session_start_value) ;;
  self (modify (set_session_total (dec_sub now ssv))) ;;
  ssmv <- self (gets _session_start_measured_value) ;;
  self (super (modify
    (MeasureItMeter.set_measured_value (dec_add ssmv (dec_sub now ssv))))).

Definition update (value : option D) : Exec World unit :=
  m <- self (gets measuring) ;;
  when m (
    now <- get_timestamp ;;
    ssv <- self (gets _session_start_value) ;;
    self (modify (set_session_total (dec_sub now ssv))) ;;
    ssmv <- self (gets _session_start_measured_value) ;;
    self (super (modify
      (MeasureItMeter.set_measured_value (dec_add ssmv (dec_sub now ssv)))))).

Definition reset : Exec World unit :=
  m <- self (gets measuring) ;;
  when m stop ;;
  cur <- self (gets measured_value) ;;
  self (super (modify (MeasureItMeter.set_prev_measured_value cur))) ;;
  self (super (modify (MeasureItMeter.set_measured_value (Decimal_of_int 0)))) ;;
  m <- self (gets measuring) ;;
  when m start.

Definition to_dict (m : t) : gmap string (PyValue D) :=
  let data := MeasureItMeter.to_dict (base m) in
  <["session_start_measured_value" :=
       VDecimal (_session_start_measured_value m)]>
  (<["session_start_value" := VDecimal (_session_start_value m)]>
  data).

Definition from_dict (data : gmap string (PyValue D)) : Exec t unit :=
  super (MeasureItMeter.from_dict data) ;;
  v <- getitem data "session_start_value" ;;
  d <- Decimal v ;;
  modify (set_session_start_value d) ;;
  v <- getitem data "session_start_measured_value" ;;
  d <- Decimal v ;;
  modify (set_session_start_measured_value d).

(* [_session_start_measured_value + (now - _session_start_value)], the
   value [stop] and [update] compute from the clock reading [now] *)
Definition session_value (now : D) (m : t) : D :=
  dec_add (_session_start_measured_value m)
          (dec_sub now (_session_start_value m)).

End WithDecimal.
Arguments t D : clear implicits.
Arguments World D : clear implicits.
End TimeMeter.

(** ** A meter of any class

  The owner of a meter holds one of the three concrete classes and calls
  the four lifecycle methods on it; Python dispatches on the class.  A
  [TimeMeter] comes with the clock it reads. *)
Module Meter.
Section WithDecimal.
Context {D : Type} `{!DecimalOps D}.

Inductive t : Type :=
| Counter (m : CounterMeter.t D)
| Source (m : SourceMeter.t D)
| Time (w : TimeMeter.World D).

Definition measured_value (m : t) : D :=
  match m with
  | Counter c => CounterMeter.measured_value c
  | Source s => SourceMeter.measured_value s
  | Time w => TimeMeter.measured_value (TimeMeter.meter w)
  end.

Definition prev_measured_value (m : t) : D :=
  match m with
  | Counter c => CounterMeter.prev_measured_value c
  | Source s => SourceMeter.prev_measured_value s
  | Time w => TimeMeter.prev_measured_value (TimeMeter.meter w)
  end.

Definition measuring (m : t) : bool :=
  match m with
  | Counter c => CounterMeter.measuring c
  | Source s => SourceMeter.measuring s
  | Time w => TimeMeter.measuring (TimeMeter.meter w)
  end.

Definition dispatch {A} (counter : Exec (CounterMeter.t D) A)
    (source : Exec (SourceMeter.t D) A)
    (time : Exec (TimeMeter.World D) A) : Exec t A :=
  fun m => match m with
           | Counter c => let (r, c') := counter c in (r, Counter c')
           | Source s => let (r, s') := source s in (r, Source s')
           | Time w => let (r, w') := time w in (r, Time w')
           end.

Definition start : Exec t unit :=
  dispatch CounterMeter.start SourceMeter.start TimeMeter.start.
Definition stop : Exec t unit :=
  dispatch CounterMeter.stop SourceMeter.stop TimeMeter.stop.
Definition update (value : option D) : Exec t unit :=
  dispatch (CounterMeter.update value) (SourceMeter.update value)
           (TimeMeter.update value).
Definition reset : Exec t unit :=
  dispatch CounterMeter.reset SourceMeter.reset TimeMeter.reset.

(** The calls an owner makes, and a run of such calls.  The owner goes
    on after a call that raised: the object stays as the failed call
    left it. *)
Inductive call : Type :=
| Start
| Stop
| Update (value : option D)
| Reset.

Definition perform (c : call) : Exec t unit :=
  match c with
  | Start => start
  | Stop => stop
  | Update value => update value
  | Reset => reset
  end.

Fixpoint run (calls : list call) (m : t) : t :=
  match calls with
  | [] => m
  | c :: rest => run rest (state_after (perform c m))
  end.

Definition is_reset (c : call) : bool :=
  match c with Reset => true | _ => false end.

End WithDecimal.
Arguments t D : clear implicits.
Arguments call D : clear implicits.
End Meter.

(** ** Runs of calls, observed

    [run_outcomes] lists how each call of a run ended; the run itself is
    [Meter.run]. *)
Section Runs.
Context {D : Type} `{!DecimalOps D}.

Fixpoint run_outcomes (calls : list (Meter.call D)) (m : Meter.t D)
    : list (Completion unit) :=
  match calls with
  | [] => []
  | c :: rest =>
      fst (Meter.perform c m)
      :: run_outcomes rest (state_after (Meter.perform c m))
  end.

Definition is_update (c : Meter.call D) : bool :=
  match c with Meter.Update _ => true | _ => false end.

(* [((m + v1) + ...) + vn] as successive [update(v)] calls of a counter
   compute it; None as soon as one addition signals *)
Fixpoint counter_sum (m : D) (vs : list D) : option D :=
  match vs with
  | [] => Some m
  | v :: rest =>
      match dec_add_traps m v with
      | Some _ => None
      | None => counter_sum (dec_add m v) rest
      end
  end.

(* the calls [update(v)] for the readings [vs], in order *)
Definition updates (vs : list D) : list (Meter.call D) :=
  map (fun v => Meter.Update (Some v)) vs.

(* [n] calls [update()] without a value, the periodic tick *)
Definition ticks (n : nat) : list (Meter.call D) :=
  repeat (Meter.Update None) n.

End Runs.

(** ** The life cycle of a [SourceMeter]

    The states an owner can bring a [SourceMeter] into with the
    constructor and the four lifecycle methods, a call that raised
    included; [from_dict] is not part of it. *)
Section Lifecycle.
Context {D : Type} `{!DecimalOps D}.

Inductive source_lifecycle : SourceMeter.t D -> Prop :=
| lifecycle_init (source_value : option D) :
    source_lifecycle (SourceMeter.init source_value)
| lifecycle_start (s : SourceMeter.t D) :
    source_lifecycle s -> source_lifecycle (state_after (SourceMeter.start s))
| lifecycle_stop (s : SourceMeter.t D) :
    source_lifecycle s -> source_lifecycle (state_after (SourceMeter.stop s))
| lifecycle_update (s : SourceMeter.t D) (value : option D) :
    source_lifecycle s ->
    source_lifecycle (state_after (SourceMeter.update value s))
| lifecycle_reset (s : SourceMeter.t D) :
    source_lifecycle s -> source_lifecycle (state_after (SourceMeter.reset s)).

End Lifecycle.

(** * Scenarios on Python decimals *)

(* Decimal(n) *)
Definition dec (n : Z) : PyDecimal.t := PyDecimal.of_int n.

Example counter_accumulates :
  let m := CounterMeter.init in
  let m := state_after (CounterMeter.start m) in
  let m := state_after (CounterMeter.update (Some (dec 5)) m) in
  let m := state_after (CounterMeter.update (Some (dec 3)) m) in
  CounterMeter.measured_value m = dec 8.
Proof. reflexivity. Qed.

Example counter_ignores_update_before_start :
  CounterMeter.measured_value
    (state_after (CounterMeter.update (Some (dec 5)) CounterMeter.init)) = dec 0.
Proof. reflexivity. Qed.

Example source_reset_continues :
  let m := state_after (SourceMeter.update (Some (dec 110))
             (state_after (SourceMeter.start (SourceMeter.init (Some (dec 100)))))) in
  let r := SourceMeter.reset m in
  let m' := state_after (SourceMeter.update (Some (dec 130)) (state_after r)) in
  fst r = Normal tt
  /\ SourceMeter.measuring (state_after r) = true
  /\ SourceMeter.prev_measured_value (state_after r) = dec 10
  /\ SourceMeter.measured_value (state_after r) = dec 0
  /\ SourceMeter.measured_value m' = dec 20.
Proof. vm_compute. repeat split. Qed.

(** Decimal signals are raised as in Python: [SourceMeter(-9E+999999)],
    [start()], [stop()], [update(9E+999999)], [stop()] ends in
    [decimal.Overflow], the meter idle and its value as it was. *)
Example source_stop_overflow :
  let low := PyDecimal.mk true 9 999999 in
  let high := PyDecimal.mk false 9 999999 in
  let r1 := SourceMeter.start (SourceMeter.init (Some low)) in
  let r2 := SourceMeter.stop (state_after r1) in
  let r3 := SourceMeter.update (Some high) (state_after r2) in
  let r4 := SourceMeter.stop (state_after r3) in
  map fst [r1; r2; r3; r4]
  = [Normal tt; Normal tt; Normal tt; Raised (DecimalException Overflow)]
  /\ SourceMeter.measured_value (state_after r4)
     = SourceMeter.measured_value (state_after r3)
  /\ SourceMeter.measuring (state_after r4) = false.
Proof. vm_compute. repeat split. Qed.

(** C7.  A [SourceMeter] built with reading 100: [start()], [update(110)]
    gives 10; after [stop()], [update(150)] leaves 10; after [start()],
    [update(170)] gives 30.  Every call returns normally. *)
Theorem source_delta_continuity_across_pause :
  let r1 := SourceMeter.start (SourceMeter.init (Some (dec 100))) in
  let r2 := SourceMeter.update (Some (dec 110)) (state_after r1) in
  let r3 := SourceMeter.stop (state_after r2) in
  let r4 := SourceMeter.update (Some (dec 150)) (state_after r3) in
  let r5 := SourceMeter.start (state_after r4) in
  let r6 := SourceMeter.update (Some (dec 170)) (state_after r5) in
  map fst [r1; r2; r3; r4; r5; r6] = repeat (Normal tt) 6
  /\ SourceMeter.measured_value (state_after r2) = dec 10
  /\ SourceMeter.measuring (state_after r3) = false
  /\ SourceMeter.measured_value (state_after r3) = dec 10
  /\ SourceMeter.measured_value (state_after r4) = dec 10
  /\ SourceMeter._session_start_value (state_after r5) = Some (dec 150)
  /\ SourceMeter.measured_value (state_after r6) = dec 30.
Proof. vm_compute. repeat split. Qed.

(** C1.  A [TimeMeter] with the clock at 0: [start()], then [update()] at
    10 gives 10, and [reset()] gives previous value 10 and value 0.  But
    [reset] leaves the meter stopped: its second [if self._measuring] is
    read after [stop()] cleared the flag, so [start()] is never called, and
    [update()] at 15 leaves the value at 0 instead of 5. *)
Theorem time_reset_scenario :
  let w1 := state_after (TimeMeter.start (TimeMeter.at_time (dec 0) TimeMeter.init)) in
  let w2 := state_after (TimeMeter.update None
              (TimeMeter.at_time (dec 10) (TimeMeter.meter w1))) in
  let r3 := TimeMeter.reset (TimeMeter.at_time (dec 10) (TimeMeter.meter w2)) in
  let w4 := state_after (TimeMeter.update None
              (TimeMeter.at_time (dec 15) (TimeMeter.meter (state_after r3)))) in
  TimeMeter.measuring (TimeMeter.meter w1) = true
  /\ TimeMeter.measured_value (TimeMeter.meter w2) = dec 10
  /\ fst r3 = Normal tt
  /\ TimeMeter.prev_measured_value (TimeMeter.meter (state_after r3)) = dec 10
  /\ TimeMeter.measured_value (TimeMeter.meter (state_after r3)) = dec 0
  /\ TimeMeter.measuring (TimeMeter.meter (state_after r3)) = false
  /\ TimeMeter.measured_value (TimeMeter.meter w4) = dec 0
  /\ PyDecimal.eqb (TimeMeter.measured_value (TimeMeter.meter w4)) (dec 5)
     = false.
Proof. vm_compute. repeat split. Qed.

(** With an explicit [start()] after that reset, the clock at 15 gives the
    5 seconds of the new session. *)
Example time_reset_then_start :
  let w1 := state_after (TimeMeter.start (TimeMeter.at_time (dec 0) TimeMeter.init)) in
  let w2 := state_after (TimeMeter.update None
              (TimeMeter.at_time (dec 10) (TimeMeter.meter w1))) in
  let w3 := state_after (TimeMeter.reset
              (TimeMeter.at_time (dec 10) (TimeMeter.meter w2))) in
  let w4 := state_after (TimeMeter.start
              (TimeMeter.at_time (dec 10) (TimeMeter.meter w3))) in
  let w5 := state_after (TimeMeter.update None
              (TimeMeter.at_time (dec 15) (TimeMeter.meter w4))) in
  TimeMeter.measured_value (TimeMeter.meter w5) = dec 5.
Proof. reflexivity. Qed.

(** * What each method does

    The bodies have no loops, so each one is characterised by the state it
    leaves and the way it ends.  These equations hold for every decimal
    arithmetic. *)

Ltac open_meter m :=
  match type of m with
  | MeasureItMeter.t _ => destruct m as [? ? ?]
  | CounterMeter.t _ => destruct m as [[? ? ?]]
  | SourceMeter.t _ => destruct m as [[? ? ?] ? ? ? ?]
  | TimeMeter.t _ => destruct m as [[? ? ?] ? ? ?]
  | TimeMeter.World _ => destruct m as [[[? ? ?] ? ? ?] ?]
  end.

(* run the method bodies in the goal, leaving the decimal arithmetic *)
Ltac exec :=
  cbv -[dec_add dec_sub dec_add_traps dec_sub_traps dec_bool Decimal_of_int].

(* case analysis on the signals of the decimal arithmetic in the goal *)
Ltac case_traps :=
  exec;
  repeat match goal with
         | |- context [dec_sub_traps ?a ?b] =>
             destruct (dec_sub_traps a b) eqn:?; exec
         | |- context [dec_add_traps ?a ?b] =>
             destruct (dec_add_traps a b) eqn:?; exec
         end.

Section Methods.
Context {D : Type} `{!DecimalOps D}.

Lemma SourceMeter_stop_defined (m : SourceMeter.t D) (v : D) :
  SourceMeter.session_value m = inr v ->
  fst (SourceMeter.stop m) = Normal tt
  /\ SourceMeter.measured_value (state_after (SourceMeter.stop m)) = v
  /\ SourceMeter.prev_measured_value (state_after (SourceMeter.stop m))
     = SourceMeter.prev_measured_value m
  /\ SourceMeter.measuring (state_after (SourceMeter.stop m)) = false
  /\ SourceMeter.session_value (state_after (SourceMeter.stop m)) = inr v.
Proof.
  open_meter m.
  destruct _source_value as [src|], _session_start_value as [ssv|];
    case_traps; try discriminate; intros [= <-]; repeat split;
    congruence.
Qed.

(** When the session value is an exception, [stop] raises it; the flag is
    already off, and the values and the anchor are as before. *)
Lemma SourceMeter_stop_raises (m : SourceMeter.t D) (e : exn) :
  SourceMeter.session_value m = inl e ->
  fst (SourceMeter.stop m) = Raised e
  /\ SourceMeter.measured_value (state_after (SourceMeter.stop m))
     = SourceMeter.measured_value m
  /\ SourceMeter.prev_measured_value (state_after (SourceMeter.stop m))
     = SourceMeter.prev_measured_value m
  /\ SourceMeter.measuring (state_after (SourceMeter.stop m)) = false
  /\ SourceMeter.session_value (state_after (SourceMeter.stop m)) = inl e.
Proof.
  open_meter m.
  destruct _source_value as [src|], _session_start_value as [ssv|];
    case_traps; try discriminate; intros [= <-]; repeat split;
    congruence.
Qed.

Lemma TimeMeter_stop_spec (w : TimeMeter.World D) :
  let r := TimeMeter.stop w in
  fst r = Normal tt
  /\ TimeMeter.measured_value (TimeMeter.meter (state_after r))
     = TimeMeter.session_value (TimeMeter.utcnow w 0%nat) (TimeMeter.meter w)
  /\ TimeMeter.prev_measured_value (TimeMeter.meter (state_after r))
     = TimeMeter.prev_measured_value (TimeMeter.meter w)
  /\ TimeMeter.measuring (TimeMeter.meter (state_after r)) = false
  /\ TimeMeter._session_start_value (TimeMeter.meter (state_after r))
     = TimeMeter._session_start_value (TimeMeter.meter w)
  /\ TimeMeter._session_start_measured_value (TimeMeter.meter (state_after r))
     = TimeMeter._session_start_measured_value (TimeMeter.meter w)
  /\ TimeMeter.utcnow (state_after r) = fun k => TimeMeter.utcnow w (S k).
Proof. open_meter w. repeat split. Qed.

(** [CounterMeter.reset] never touches the flag. *)
Lemma CounterMeter_reset_measuring (m : CounterMeter.t D) :
  fst (CounterMeter.reset m) = Normal tt
  /\ CounterMeter.measuring (state_after (CounterMeter.reset m))
     = CounterMeter.measuring m.
Proof. open_meter m. split; reflexivity. Qed.

(** [SourceMeter.reset] stops and starts again inside one branch, so a
    reset that returns leaves the flag as it was. *)
Lemma SourceMeter_reset_measuring (m : SourceMeter.t D) :
  fst (SourceMeter.reset m) = Normal tt ->
  SourceMeter.measuring (state_after (SourceMeter.reset m))
  = SourceMeter.measuring m.
Proof.
  open_meter m. destruct _measuring; [|reflexivity].
  destruct _source_value, _session_start_value;
    case_traps; first [reflexivity | discriminate].
Qed.

(** [SourceMeter.reset] returns unless a session is open whose value is
    an exception (an absent reading, or arithmetic that signals). *)
Lemma SourceMeter_reset_returns (m : SourceMeter.t D) :
  fst (SourceMeter.reset m) = Normal tt
  <-> SourceMeter.measuring m = false
      \/ exists v, SourceMeter.session_value m = inr v.
Proof.
  open_meter m.
  destruct _measuring, _source_value, _session_start_value;
    case_traps;
    split; intros Hr; try discriminate; eauto;
    destruct Hr as [Hr|[? Hr]]; discriminate.
Qed.

(** [TimeMeter.reset] always returns, and always leaves the meter idle:
    when a session is open [stop] has already cleared the flag by the time
    the final [if self._measuring] reads it. *)
Lemma TimeMeter_reset_measuring (w : TimeMeter.World D) :
  fst (TimeMeter.reset w) = Normal tt
  /\ TimeMeter.measuring (TimeMeter.meter (state_after (TimeMeter.reset w)))
     = false.
Proof. open_meter w. destruct _measuring; split; reflexivity. Qed.

End Methods.

(** C2.  [reset()] must keep the measuring flag.  For a [TimeMeter] that is
    measuring it does not: the meter started at time 0 is measuring, its
    [reset()] returns normally, and afterwards the flag is off. *)
Theorem time_reset_clears_measuring :
  let w := state_after (TimeMeter.start (TimeMeter.at_time (dec 0) TimeMeter.init)) in
  TimeMeter.measuring (TimeMeter.meter w) = true
  /\ fst (TimeMeter.reset w) = Normal tt
  /\ TimeMeter.measuring (TimeMeter.meter (state_after (TimeMeter.reset w)))
     = false.
Proof.
  cbv zeta. split; [reflexivity|]. apply TimeMeter_reset_measuring.
Qed.

(** * Stopping an idle meter *)

Section IdleStop.
Context {D : Type} `{!DecimalOps D}.

(** [stop] twice: the second call of a [SourceMeter] recomputes the value
    the first one stored. *)
Lemma SourceMeter_stop_twice (m : SourceMeter.t D) :
  let m1 := state_after (SourceMeter.stop m) in
  SourceMeter.measured_value (state_after (SourceMeter.stop m1))
  = SourceMeter.measured_value m1.
Proof.
  cbv zeta. destruct (SourceMeter.session_value m) as [e|v] eqn:Hv.
  - destruct (SourceMeter_stop_raises m e Hv) as (_ & _ & _ & _ & Hv1).
    destruct (SourceMeter_stop_raises _ e Hv1) as (_ & Hmv1 & _).
    exact Hmv1.
  - destruct (SourceMeter_stop_defined m v Hv) as (_ & Hmv & _ & _ & Hv1).
    destruct (SourceMeter_stop_defined _ v Hv1) as (_ & Hmv1 & _).
    congruence.
Qed.


End IdleStop.



(** * Facts on Python decimals

    Digits of a coefficient, and the two facts the meters need: a result
    of [+] fits the context, and adding [x - x] to a decimal that fits the
    context does not change its numeric value. *)
Module PyDecimalFacts.
Import PyDecimal.

Lemma digits_fuel_bounds (fuel : nat) (n : N) :
  (0 < n)%N -> (n < 2 ^ N.of_nat fuel)%N ->
  (10 ^ (N.of_nat (digits_fuel fuel n) - 1) <= n
   /\ n < 10 ^ N.of_nat (digits_fuel fuel n))%N.
Proof.
  revert n. induction fuel as [|f IH]; intros n Hpos Hlt.
  - change (2 ^ N.of_nat 0)%N with 1%N in Hlt. lia.
  - cbn [digits_fuel]. destruct (N.ltb_spec n 10) as [Hs|Hb].
    + split; [change (1 <= n)%N | change (n < 10)%N]; lia.
    + assert (Hq : (0 < n / 10)%N).
      { apply N.div_str_pos. lia. }
      assert (Hq2 : (n / 10 < 2 ^ N.of_nat f)%N).
      { apply N.Div0.div_lt_upper_bound.
        rewrite Nat2N.inj_succ, N.pow_succ_r' in Hlt. lia. }
      destruct (IH _ Hq Hq2) as [Hlo Hhi].
      set (d := digits_fuel f (n / 10)) in *.
      rewrite Nat2N.inj_succ.
      assert (Hd : (1 <= N.of_nat d)%N).
      { destruct (N.eq_dec (N.of_nat d) 0%N) as [E|]; [|lia].
        rewrite E in Hhi. simpl in Hhi. lia. }
      pose proof (N.Div0.mul_div_le n 10) as Hle.
      pose proof (N.mul_succ_div_gt n 10 ltac:(lia)) as Hgt.
      split.
      * replace (N.succ (N.of_nat d) - 1)%N with (N.succ (N.of_nat d - 1))%N by lia.
        rewrite N.pow_succ_r'. lia.
      * rewrite N.pow_succ_r'. lia.
Qed.

Lemma digits_bounds (n : N) :
  (0 < n)%N ->
  (10 ^ (N.of_nat (digits n) - 1) <= n /\ n < 10 ^ N.of_nat (digits n))%N.
Proof.
  intros Hpos. apply digits_fuel_bounds; [exact Hpos|].
  rewrite N2Nat.id. apply N.size_gt.
Qed.

Lemma digits_pos (n : N) : (1 <= digits n)%nat.
Proof.
  unfold digits. destruct (N.to_nat (N.size n)) as [|f]; simpl; [lia|].
  destruct (n <? 10)%N; lia.
Qed.

Lemma digits_le (n : N) (d : nat) :
  (1 <= d)%nat -> (n < 10 ^ N.of_nat d)%N -> (digits n <= d)%nat.
Proof.
  intros Hd Hlt. destruct (N.eq_dec n 0%N) as [->|Hn].
  - vm_compute digits. lia.
  - destruct (digits_bounds n ltac:(lia)) as [Hlo _].
    destruct (le_lt_dec (digits n) d) as [|Hgt]; [assumption|exfalso].
    assert (10 ^ N.of_nat d <= 10 ^ (N.of_nat (digits n) - 1))%N.
    { apply N.pow_le_mono_r; lia. }
    lia.
Qed.

Lemma digits_unique (n : N) (d : nat) :
  (1 <= d)%nat ->
  (10 ^ (N.of_nat d - 1) <= n)%N -> (n < 10 ^ N.of_nat d)%N -> digits n = d.
Proof.
  intros Hd Hlo Hhi.
  assert (Hpos : (0 < n)%N).
  { pose proof (N.pow_nonzero 10 (N.of_nat d - 1) ltac:(lia)). lia. }
  pose proof (digits_le n d Hd Hhi) as Hle.
  destruct (digits_bounds n Hpos) as [_ Hhi'].
  destruct (le_lt_dec d (digits n)) as [|Hlt]; [lia|exfalso].
  assert (10 ^ N.of_nat (digits n) <= 10 ^ (N.of_nat d - 1))%N.
  { apply N.pow_le_mono_r; lia. }
  lia.
Qed.

Lemma digits_scale (c : N) (j : N) :
  (0 < c)%N -> digits (c * 10 ^ j) = (digits c + N.to_nat j)%nat.
Proof.
  intros Hc. destruct (digits_bounds c Hc) as [Hlo Hhi].
  pose proof (digits_pos c) as Hd.
  pose proof (N.pow_nonzero 10 j ltac:(lia)) as Hp.
  apply digits_unique; [lia| |].
  - replace (N.of_nat (digits c + N.to_nat j) - 1)%N
      with ((N.of_nat (digits c) - 1) + j)%N by lia.
    rewrite N.pow_add_r. apply N.mul_le_mono_r. exact Hlo.
  - replace (N.of_nat (digits c + N.to_nat j))
      with (N.of_nat (digits c) + j)%N by lia.
    rewrite N.pow_add_r. apply N.mul_lt_mono_pos_r; [lia|exact Hhi].
Qed.


Lemma fix_fixed (x : t) : fixed (fix_ x).
Proof.
  unfold fix_, fixed. destruct (is_zero x) eqn:Hz.
  - cbn [coefficient exponent]. split; [vm_compute; lia|].
    unfold Etiny, Emin, Emax, prec. lia.
  - unfold is_zero in Hz. apply N.eqb_neq in Hz.
    set (n := Z.of_nat (digits (coefficient x))).
    set (k := Z.max (n - Z.of_nat prec) (Etiny - exponent x)).
    destruct (Z.leb_spec k 0) as [Hk|Hk].
    + subst k n. split; lia.
    + destruct (digits_bounds (coefficient x) ltac:(lia)) as [_ Hhi].
      set (p := (10 ^ Z.to_N k)%N).
      set (q := (coefficient x / p)%N).
      assert (Hp : (0 < p)%N).
      { subst p. pose proof (N.pow_nonzero 10 (Z.to_N k) ltac:(lia)). lia. }
      assert (Hq : (q < 10 ^ N.of_nat prec)%N).
      { subst q. apply N.Div0.div_lt_upper_bound.
        eapply N.lt_le_trans; [exact Hhi|].
        subst p. rewrite <- N.pow_add_r. apply N.pow_le_mono_r; [lia|].
        subst k n. lia. }
      set (q' := match (2 * (coefficient x mod p) ?= p)%N with
                 | Gt => (q + 1)%N
                 | Eq => if N.odd q then (q + 1)%N else q
                 | Lt => q
                 end).
      assert (Hq' : (q' <= 10 ^ N.of_nat prec)%N).
      { subst q'. destruct (2 * (coefficient x mod p) ?= p)%N;
          [destruct (N.odd q)| |]; lia. }
      destruct (N.eqb_spec q' (10 ^ N.of_nat prec)) as [E|E];
        cbn [coefficient exponent].
      * rewrite E. split; [vm_compute; lia|]. subst k. lia.
      * split; [|subst k; lia].
        apply digits_le; [unfold prec; lia | lia].
Qed.

Lemma signed_copy_negate (x : t) : signed (copy_negate x) = - signed x.
Proof. unfold signed, copy_negate. destruct x as [[] c e]; simpl; lia. Qed.

Lemma sub_self (x : t) :
  sub x x = mk false 0 (Z.min (Z.max (exponent x) Etiny) Emax).
Proof.
  unfold sub, add, exact_sum.
  assert (He : Z.min (exponent x) (exponent (copy_negate x)) = exponent x).
  { unfold copy_negate. cbn [exponent]. lia. }
  rewrite He.
  replace (exponent (copy_negate x)) with (exponent x) by reflexivity.
  rewrite signed_copy_negate, Z.sub_diag.
  change (10 ^ 0) with 1.
  replace (signed x * 1 + - signed x * 1) with 0 by lia.
  destruct (is_zero x && is_zero (copy_negate x)); destruct x as [[] c e];
    reflexivity.
Qed.

Lemma eqb_refl (x : t) : eqb x x = true.
Proof. unfold eqb. apply Z.eqb_refl. Qed.

(** Adding a zero to a decimal that fits the context gives a decimal of
    the same numeric value. *)
Lemma add_zero_eqb (m : t) (s : bool) (e : Z) :
  fixed m -> Etiny <= e -> eqb (add m (mk s 0 e)) m = true.
Proof.
  intros [Hd He] Hz. unfold add, exact_sum.
  cbn [exponent is_zero coefficient]. change (0 =? 0)%N with true.
  rewrite andb_true_r.
  destruct (is_zero m) eqn:Hm.
  - unfold is_zero in Hm. apply N.eqb_eq in Hm.
    unfold fix_, eqb, signed. cbn [is_zero coefficient exponent sign].
    change (0 =? 0)%N with true. cbn [coefficient exponent sign].
    rewrite Hm. destruct (sign m && s), (sign m); reflexivity.
  - unfold is_zero in Hm. apply N.eqb_neq in Hm.
    set (e0 := Z.min (exponent m) e).
    set (j := exponent m - e0).
    assert (Hj : 0 <= j) by (subst j e0; lia).
    assert (Hs : signed (mk s 0 e) = 0) by (unfold signed; destruct s; reflexivity).
    rewrite Hs, Z.mul_0_l, Z.add_0_r.
    assert (Hp : 0 < 10 ^ j) by (apply Z.pow_pos_nonneg; lia).
    assert (Hsg : (signed m * 10 ^ j <? 0) = sign m).
    { unfold signed. destruct (sign m).
      - apply Z.ltb_lt. nia.
      - apply Z.ltb_ge. nia. }
    assert (Habs : Z.abs_N (signed m * 10 ^ j) = (coefficient m * 10 ^ Z.to_N j)%N).
    { apply N2Z.inj. rewrite N2Z.inj_abs_N, N2Z.inj_mul, N2Z.inj_pow, Z2N.id by lia.
      change (Z.of_N 10) with 10.
      unfold signed. destruct (sign m); nia. }
    rewrite Hsg, Habs.
    set (c := coefficient m) in *.
    unfold fix_, is_zero. cbn [coefficient exponent sign].
    assert (Hnz : ((c * 10 ^ Z.to_N j =? 0)%N) = false).
    { apply N.eqb_neq. pose proof (N.pow_nonzero 10 (Z.to_N j) ltac:(lia)). nia. }
    rewrite Hnz. rewrite digits_scale by lia.
    set (k := Z.max (Z.of_nat (digits c + N.to_nat (Z.to_N j)) - Z.of_nat prec)
                    (Etiny - e0)).
    assert (Hk : k <= j).
    { subst k e0. rewrite Nat2Z.inj_add, N_nat_Z, Z2N.id by lia. lia. }
    assert (Hfinal : forall q k', 0 <= k' <= j ->
               q = (c * 10 ^ Z.to_N (j - k'))%N ->
               eqb (mk (sign m) q (e0 + k')) m = true).
    { intros q k' Hk' ->. unfold eqb. cbn [exponent].
      replace (Z.min (e0 + k') (exponent m)) with (e0 + k') by (subst j; lia).
      replace (e0 + k' - (e0 + k')) with 0 by lia.
      replace (exponent m - (e0 + k')) with (j - k') by (subst j; lia).
      apply Z.eqb_eq. change (10 ^ 0) with 1.
      unfold signed. cbn [sign coefficient]. fold c.
      rewrite N2Z.inj_mul, N2Z.inj_pow, Z2N.id by lia.
      change (Z.of_N 10) with 10. destruct (sign m); lia. }
    destruct (Z.leb_spec k 0) as [Hk0|Hk0].
    + replace e0 with (e0 + 0) by lia. apply Hfinal; [lia|].
      rewrite Z.sub_0_r. reflexivity.
    + assert (Hdiv : (c * 10 ^ Z.to_N j / 10 ^ Z.to_N k
                      = c * 10 ^ Z.to_N (j - k))%N).
      { replace (Z.to_N j) with (Z.to_N (j - k) + Z.to_N k)%N by lia.
        rewrite N.pow_add_r, N.mul_assoc. apply N.div_mul.
        apply N.pow_nonzero. lia. }
      assert (Hmod : (c * 10 ^ Z.to_N j mod 10 ^ Z.to_N k = 0)%N).
      { replace (Z.to_N j) with (Z.to_N (j - k) + Z.to_N k)%N by lia.
        rewrite N.pow_add_r, N.mul_assoc. apply N.Div0.mod_mul. }
      rewrite Hdiv, Hmod.
      assert (Hcmp : (2 * 0 ?= 10 ^ Z.to_N k)%N = Lt).
      { apply N.compare_lt_iff.
        pose proof (N.pow_nonzero 10 (Z.to_N k) ltac:(lia)). lia. }
      rewrite Hcmp.
      assert (Hq : (c * 10 ^ Z.to_N (j - k) < 10 ^ N.of_nat prec)%N).
      { destruct (digits_bounds c ltac:(lia)) as [_ Hhi].
        assert (Hkd : k = Z.of_nat (digits c) + j - Z.of_nat prec).
        { subst k e0. rewrite Nat2Z.inj_add, N_nat_Z, Z2N.id by lia. lia. }
        replace (N.of_nat prec)
          with (N.of_nat (digits c) + Z.to_N (j - k))%N by lia.
        rewrite N.pow_add_r. apply N.mul_lt_mono_pos_r; [|exact Hhi].
        pose proof (N.pow_nonzero 10 (Z.to_N (j - k)) ltac:(lia)). lia. }
      assert (Hne : ((c * 10 ^ Z.to_N (j - k) =? 10 ^ N.of_nat prec)%N) = false).
      { apply N.eqb_neq. lia. }
      rewrite Hne. apply Hfinal; [lia|reflexivity].
Qed.

(** [m + (x - x)] has the numeric value of [m] when [m] fits the
    context. *)
Lemma add_sub_self_eqb (m x : t) :
  fixed m -> eqb (add m (sub x x)) m = true.
Proof.
  intros Hm. rewrite sub_self. apply add_zero_eqb; [exact Hm|].
  unfold Etiny, Emin, Emax, prec. lia.
Qed.


(** Every result of [+] and of [-] fits the context. *)
Lemma add_fixed (x y : t) : fixed (add x y).
Proof. apply fix_fixed. Qed.

Lemma of_int_0_fixed : fixed (of_int 0).
Proof. split; vm_compute; [lia | discriminate]. Qed.

End PyDecimalFacts.

(** * Reset *)

Section Reset.
Context {D : Type} `{!DecimalOps D}.

(** [reset] returns for every [CounterMeter] and [TimeMeter], and for a
    [SourceMeter] unless a session is open whose value is an exception. *)
Lemma Meter_reset_returns (m : Meter.t D) :
  fst (Meter.reset m) = Normal tt
  <-> match m with
      | Meter.Source s =>
          SourceMeter.measuring s = false
          \/ exists v, SourceMeter.session_value s = inr v
      | _ => True
      end.
Proof.
  destruct m as [c|s|w]; unfold Meter.reset, Meter.dispatch.
  - destruct (CounterMeter_reset_measuring c) as [Hr _].
    destruct (CounterMeter.reset c); tauto.
  - rewrite <- SourceMeter_reset_returns.
    destruct (SourceMeter.reset s); reflexivity.
  - destruct (TimeMeter_reset_measuring w) as [Hr _].
    destruct (TimeMeter.reset w); tauto.
Qed.

(** The flag after a [reset] that returned: kept by a [CounterMeter] and
    a [SourceMeter], cleared by a [TimeMeter]. *)
Lemma Meter_reset_measuring (m : Meter.t D) :
  fst (Meter.reset m) = Normal tt ->
  Meter.measuring (state_after (Meter.reset m))
  = match m with
    | Meter.Time _ => false
    | _ => Meter.measuring m
    end.
Proof.
  destruct m as [c|s|w]; unfold Meter.reset, Meter.dispatch, state_after.
  - intros _. pose proof (proj2 (CounterMeter_reset_measuring c)) as Hm.
    unfold state_after in Hm. destruct (CounterMeter.reset c). exact Hm.
  - pose proof (SourceMeter_reset_measuring s) as Hm.
    unfold state_after in Hm. destruct (SourceMeter.reset s). exact Hm.
  - intros _. pose proof (proj2 (TimeMeter_reset_measuring w)) as Hm.
    unfold state_after in Hm. destruct (TimeMeter.reset w). exact Hm.
Qed.

(** What [reset] saves and leaves, for every class and every state from
    which it returns: the value is 0, and the previous value is the value
    with the open session folded in. *)
Lemma reset_folds_session (m : Meter.t D) :
  fst (Meter.reset m) = Normal tt ->
  let m' := state_after (Meter.reset m) in
  Meter.measured_value m' = Decimal_of_int 0
  /\ match m with
     | Meter.Counter _ => Meter.prev_measured_value m' = Meter.measured_value m
     | Meter.Source s =>
         if SourceMeter.measuring s
         then SourceMeter.session_value s = inr (Meter.prev_measured_value m')
         else Meter.prev_measured_value m' = Meter.measured_value m
     | Meter.Time w =>
         if TimeMeter.measuring (TimeMeter.meter w)
         then Meter.prev_measured_value m'
              = TimeMeter.session_value (TimeMeter.utcnow w 0%nat)
                                        (TimeMeter.meter w)
         else Meter.prev_measured_value m' = Meter.measured_value m
     end.
Proof.
  destruct m as [c|s|w]; cbv zeta.
  - intros _. open_meter c. split; reflexivity.
  - open_meter s.
    destruct _measuring; [|intros _; split; reflexivity].
    destruct _source_value, _session_start_value;
      case_traps; first [discriminate | intros _; split; reflexivity].
  - intros _. open_meter w. simpl.
    destruct _measuring; split; reflexivity.
Qed.

(** Right after an [update] that returned, the value reported by a
    measuring [SourceMeter] is the folded one, so [reset] saves exactly
    the reported value. *)
Lemma SourceMeter_reset_after_update (m : SourceMeter.t D) (v : option D) :
  SourceMeter.measuring m = true ->
  fst (SourceMeter.update v m) = Normal tt ->
  let m1 := state_after (SourceMeter.update v m) in
  fst (SourceMeter.reset m1) = Normal tt
  /\ SourceMeter.prev_measured_value (state_after (SourceMeter.reset m1))
     = SourceMeter.measured_value m1.
Proof.
  open_meter m. intros Hm. cbv in Hm. subst.
  destruct v, _session_start_value;
    case_traps; first [discriminate | intros _; split; reflexivity].
Qed.

(** The same for a [TimeMeter] when the clock has not moved since the
    [update]. *)
Lemma TimeMeter_reset_after_update (w : TimeMeter.World D) (v : option D) :
  TimeMeter.measuring (TimeMeter.meter w) = true ->
  TimeMeter.utcnow w 1%nat = TimeMeter.utcnow w 0%nat ->
  let w1 := state_after (TimeMeter.update v w) in
  TimeMeter.prev_measured_value (TimeMeter.meter (state_after (TimeMeter.reset w1)))
  = TimeMeter.measured_value (TimeMeter.meter w1).
Proof.
  open_meter w. intros Hm Hclock. cbv in Hm. subst. simpl in *.
  rewrite Hclock. reflexivity.
Qed.

(** The states of the life cycle keep this much: the value is a result
    of the arithmetic (or zero), and while the meter measures and its
    session value is defined, either the value is that session value or
    the session has just been anchored at the current reading and
    value. *)
Section LifecycleInvariant.
Variable fits : D -> Prop.
Hypothesis fits_zero : fits (Decimal_of_int 0).
Hypothesis fits_add : forall a b, fits (dec_add a b).

Lemma lifecycle_invariant (s : SourceMeter.t D) :
  source_lifecycle s ->
  fits (SourceMeter.measured_value s)
  /\ (SourceMeter.measuring s = true ->
      forall v, SourceMeter.session_value s = inr v ->
      SourceMeter.measured_value s = v
      \/ exists src,
           SourceMeter._source_value s = Some src
           /\ SourceMeter._session_start_value s = Some src
           /\ SourceMeter._session_start_measured_value s
              = SourceMeter.measured_value s).
Proof.
  induction 1 as [src | s _ [IHf IHv] | s _ [IHf IHv]
                 | s value _ [IHf IHv] | s _ [IHf IHv]].
  - split; [exact fits_zero | discriminate].
  - open_meter s. split; [exact IHf|].
    intros _ v Hv. right.
    destruct _source_value as [src|]; [|discriminate].
    exists src. repeat split.
  - destruct (SourceMeter.session_value s) as [e|v] eqn:Hv.
    + destruct (SourceMeter_stop_raises s e Hv) as (_ & Hmv & _ & Hm & _).
      rewrite Hmv, Hm. split; [exact IHf | discriminate].
    + destruct (SourceMeter_stop_defined s v Hv) as (_ & Hmv & _ & Hm & _).
      rewrite Hmv, Hm. split; [|discriminate].
      unfold SourceMeter.session_value in Hv.
      destruct (SourceMeter._source_value s), (SourceMeter._session_start_value s);
        try discriminate.
      destruct (SourceMeter.session_signal _ _ _); [discriminate|].
      injection Hv as <-. apply fits_add.
  - open_meter s.
    destruct _measuring;
      [|split; [exact IHf | discriminate]].
    destruct value as [v|], _session_start_value as [ssv|];
      case_traps;
      (split; [first [exact IHf | apply fits_add]|]);
      intros _ v' Hv'; first [discriminate | left; congruence].
  - open_meter s.
    destruct _measuring;
      [|split; [exact fits_zero | discriminate]].
    destruct _source_value as [src|], _session_start_value as [ssv|];
      case_traps;
      (split; [first [exact IHf | exact fits_zero]|]);
      try discriminate.
    intros _ v' _. right. exists src. repeat split.
Qed.

(** What [reset] saves on a state of the life cycle: the reported value
    itself, or the reported value plus the zero difference [src - src]
    when the session had just been anchored. *)
Lemma lifecycle_reset_saves (s : SourceMeter.t D) :
  source_lifecycle s ->
  fst (SourceMeter.reset s) = Normal tt ->
  let saved := SourceMeter.prev_measured_value (state_after (SourceMeter.reset s)) in
  saved = SourceMeter.measured_value s
  \/ (fits (SourceMeter.measured_value s)
      /\ exists src,
           saved = dec_add (SourceMeter.measured_value s) (dec_sub src src)).
Proof.
  intros Hs Hr. cbv zeta.
  destruct (lifecycle_invariant s Hs) as [Hf Hv].
  pose proof (reset_folds_session (Meter.Source s)) as Hfold.
  unfold Meter.reset, Meter.dispatch, state_after in *.
  destruct (SourceMeter.reset s) as [r s']. cbn [fst snd] in *.
  specialize (Hfold Hr). cbv zeta in Hfold. cbn in Hfold.
  destruct Hfold as [_ Hfold].
  destruct (SourceMeter.measuring s) eqn:Hm; [|left; exact Hfold].
  destruct (Hv eq_refl _ Hfold) as [Heq | (src & Hsrc & Hssv & Hssmv)].
  - left. symmetry. exact Heq.
  - right. split; [exact Hf|]. exists src.
    unfold SourceMeter.session_value in Hfold.
    rewrite Hsrc, Hssv, Hssmv in Hfold.
    destruct (SourceMeter.session_signal _ _ _); [discriminate|].
    injection Hfold as <-. reflexivity.
Qed.

End LifecycleInvariant.

End Reset.




(** * Update *)

Section Update.
Context {D : Type} `{!DecimalOps D}.

(** C8.  [update()] with an absent value on a measuring [CounterMeter] or
    [SourceMeter] raises a type error; the counter is left as it was, and
    the source meter keeps [measured_value] and [prev_measured_value]. *)
Theorem update_absent_fails :
  (forall c : CounterMeter.t D,
      CounterMeter.measuring c = true ->
      CounterMeter.update None c = (Raised TypeError, c))
  /\ (forall s : SourceMeter.t D,
      SourceMeter.measuring s = true ->
      let r := SourceMeter.update None s in
      fst r = Raised TypeError
      /\ SourceMeter.measured_value (state_after r)
         = SourceMeter.measured_value s
      /\ SourceMeter.prev_measured_value (state_after r)
         = SourceMeter.prev_measured_value s).
Proof.
  split.
  - intros c Hm. open_meter c. cbv in Hm. subst. reflexivity.
  - intros s Hm. open_meter s. cbv in Hm. subst. repeat split.
Qed.

(** C9.  [SourceMeter.update(v)] stores [v] as [_source_value] whatever the
    flag and whatever [v]: while idle nothing else changes and the call
    returns; while measuring with [v] absent the call raises and
    [_source_value] is nevertheless [None]. *)
Theorem source_update_records_reading (s : SourceMeter.t D) (v : option D) :
  let r := SourceMeter.update v s in
  SourceMeter._source_value (state_after r) = v
  /\ (SourceMeter.measuring s = false ->
      r = (Normal tt, SourceMeter.set_source_value v s))
  /\ (SourceMeter.measuring s = true -> v = None ->
      fst r = Raised TypeError
      /\ SourceMeter._source_value (state_after r) = None).
Proof.
  open_meter s. cbv zeta. split; [|split].
  - destruct _measuring; [|reflexivity].
    destruct v, _session_start_value; case_traps; reflexivity.
  - intros Hm. cbv in Hm. subst. reflexivity.
  - intros Hm ->. cbv in Hm. subst. split; reflexivity.
Qed.

End Update.

(** [update_absent_fails] on a started counter and a started source
    meter. *)
Lemma update_absent_fails_witness :
  let c := state_after (CounterMeter.start CounterMeter.init) in
  let s := state_after (SourceMeter.start (SourceMeter.init (Some (dec 100)))) in
  CounterMeter.measuring c = true
  /\ SourceMeter.measuring s = true
  /\ CounterMeter.update None c = (Raised TypeError, c)
  /\ fst (SourceMeter.update None s) = Raised TypeError
  /\ SourceMeter.measured_value (state_after (SourceMeter.update None s))
     = SourceMeter.measured_value s.
Proof.
  cbv zeta. split; [reflexivity|]. split; [reflexivity|]. split.
  - apply (proj1 update_absent_fails). reflexivity.
  - pose proof (proj2 update_absent_fails
                  (state_after
                     (SourceMeter.start (SourceMeter.init (Some (dec 100)))))
                  eq_refl) as H.
    cbv zeta in H. destruct H as (Hr & Hmv & _). split; assumption.
Defined.

(** [source_update_records_reading] on an idle and on a started source
    meter. *)
Lemma source_update_records_reading_witness :
  let idle := SourceMeter.init (Some (dec 100)) in
  let busy := state_after (SourceMeter.start idle) in
  SourceMeter.measuring idle = false
  /\ SourceMeter.measuring busy = true
  /\ SourceMeter.update (Some (dec 150)) idle
     = (Normal tt, SourceMeter.set_source_value (Some (dec 150)) idle)
  /\ fst (SourceMeter.update None busy) = Raised TypeError
  /\ SourceMeter._source_value (state_after (SourceMeter.update None busy)) = None.
Proof.
  cbv zeta. split; [reflexivity|]. split; [reflexivity|]. split.
  - apply (source_update_records_reading
             (SourceMeter.init (Some (dec 100))) (Some (dec 150))).
    reflexivity.
  - apply (source_update_records_reading
             (state_after (SourceMeter.start (SourceMeter.init (Some (dec 100)))))
             None); reflexivity.
Defined.

(** * Calls that are not [reset] *)

Section Frame.
Context {D : Type} `{!DecimalOps D}.

Lemma perform_keeps_prev (c : Meter.call D) (m : Meter.t D) :
  Meter.is_reset c = false ->
  Meter.prev_measured_value (state_after (Meter.perform c m))
  = Meter.prev_measured_value m.
Proof.
  destruct c as [| |v|]; try discriminate; intros _;
    destruct m as [c|s|w].
  - open_meter c. reflexivity.
  - open_meter s. reflexivity.
  - open_meter w. reflexivity.
  - open_meter c. reflexivity.
  - open_meter s.
    destruct _source_value, _session_start_value; case_traps; reflexivity.
  - open_meter w. reflexivity.
  - open_meter c. destruct _measuring, v; case_traps; reflexivity.
  - open_meter s.
    destruct _measuring, v, _session_start_value; case_traps; reflexivity.
  - open_meter w. destruct _measuring; reflexivity.
Qed.

(** C10.  A run of [start()], [stop()] and [update()] calls, on a meter of
    any class and whether or not some of the calls raise, leaves
    [prev_measured_value] as it was. *)
Theorem prev_measured_value_frame (calls : list (Meter.call D)) (m : Meter.t D) :
  existsb Meter.is_reset calls = false ->
  Meter.prev_measured_value (Meter.run calls m) = Meter.prev_measured_value m.
Proof.
  revert m. induction calls as [|c calls IH]; intros m Hcalls.
  - reflexivity.
  - simpl in Hcalls. apply orb_false_elim in Hcalls as [Hc Hrest].
    simpl. rewrite (IH _ Hrest). apply perform_keeps_prev. exact Hc.
Qed.

End Frame.

(** [prev_measured_value_frame] on a source meter that was reset at value
    10, through calls of which two raise. *)
Lemma prev_measured_value_frame_witness :
  let m := Meter.run [Meter.Start; Meter.Update (Some (dec 110)); Meter.Reset]
             (Meter.Source (SourceMeter.init (Some (dec 100)))) in
  let calls := [Meter.Update (Some (dec 150)); Meter.Stop; Meter.Update None;
                Meter.Start; Meter.Update None; Meter.Update (Some (dec 170))] in
  existsb Meter.is_reset calls = false
  /\ Meter.prev_measured_value m = dec 10
  /\ Meter.prev_measured_value (Meter.run calls m) = dec 10.
Proof.
  cbv zeta. split; [reflexivity|]. split; [reflexivity|].
  rewrite prev_measured_value_frame; reflexivity.
Defined.

(** * Dictionaries: [to_dict] and [from_dict] *)

Section Dictionaries.
Context {D : Type} `{!DecimalOps D}.

Lemma MeasureItMeter_to_dict_lookup (m : MeasureItMeter.t D) :
  MeasureItMeter.to_dict m !! "measured_value"
  = Some (VDecimal (MeasureItMeter._measured_value m))
  /\ MeasureItMeter.to_dict m !! "prev_measured_value"
     = Some (VDecimal (MeasureItMeter._prev_measured_value m))
  /\ MeasureItMeter.to_dict m !! "measuring"
     = Some (VBool (MeasureItMeter._measuring m)).
Proof.
  unfold MeasureItMeter.to_dict. split; [|split].
  - rewrite !lookup_insert_ne by discriminate. apply lookup_insert_eq.
  - rewrite lookup_insert_ne by discriminate. apply lookup_insert_eq.
  - apply lookup_insert_eq.
Qed.

(** On a dictionary holding two decimals and a flag value, the base
    [from_dict] overwrites the three fields and returns. *)
Lemma MeasureItMeter_from_dict_spec (data : gmap string (PyValue D))
    (x : MeasureItMeter.t D) (mv pv : D) (ms : PyValue D) :
  data !! "measured_value" = Some (VDecimal mv) ->
  data !! "prev_measured_value" = Some (VDecimal pv) ->
  data !! "measuring" = Some ms ->
  MeasureItMeter.from_dict data x
  = (Normal tt, MeasureItMeter.mk mv pv (py_bool ms)).
Proof.
  intros Hmv Hpv Hms.
  unfold MeasureItMeter.from_dict, bind, getitem.
  rewrite Hmv, Hpv, Hms. reflexivity.
Qed.

(** [SourceMeter.from_dict] on a well-formed dictionary: the base and the
    two session fields are overwritten; then the truth value of the
    meter's own [_source_value] decides between running [update] with it
    and reading ["source_value"] from the dictionary. *)
Lemma SourceMeter_from_dict_spec (data : gmap string (PyValue D))
    (x : SourceMeter.t D) (mv pv ssv ssmv : D) (ms : PyValue D) :
  data !! "measured_value" = Some (VDecimal mv) ->
  data !! "prev_measured_value" = Some (VDecimal pv) ->
  data !! "measuring" = Some ms ->
  data !! "session_start_value" = Some (VDecimal ssv) ->
  data !! "session_start_measured_value" = Some (VDecimal ssmv) ->
  let x0 := SourceMeter.mk (MeasureItMeter.mk mv pv (py_bool ms)) (Some ssv) ssmv
              (SourceMeter._source_value x) (SourceMeter._session_total x) in
  SourceMeter.from_dict data x
  = if truthy (SourceMeter._source_value x)
    then SourceMeter.update (SourceMeter._source_value x) x0
    else match data !! "source_value" with
         | Some (VDecimal d) =>
             (Normal tt, SourceMeter.set_source_value (Some d) x0)
         | Some (VBool b) =>
             (Normal tt,
              SourceMeter.set_source_value
                (Some (Decimal_of_int (if b then 1 else 0))) x0)
         | Some VNone => (Raised TypeError, x0)
         | None => (Raised (KeyError "source_value"), x0)
         end.
Proof.
  intros Hmv Hpv Hms Hssv Hssmv. cbv zeta.
  unfold SourceMeter.from_dict, SourceMeter.super, zoom, bind at 1.
  rewrite (MeasureItMeter_from_dict_spec data _ mv pv ms Hmv Hpv Hms).
  unfold bind, getitem. rewrite Hssv, Hssmv.
  open_meter x. simpl.
  destruct (truthy _source_value); [reflexivity|].
  destruct (data !! "source_value") as [[d|b|]|]; reflexivity.
Qed.

Lemma SourceMeter_to_dict_lookup (m : SourceMeter.t D) :
  SourceMeter.to_dict m !! "measured_value"
  = Some (VDecimal (SourceMeter.measured_value m))
  /\ SourceMeter.to_dict m !! "prev_measured_value"
     = Some (VDecimal (SourceMeter.prev_measured_value m))
  /\ SourceMeter.to_dict m !! "measuring" = Some (VBool (SourceMeter.measuring m))
  /\ SourceMeter.to_dict m !! "session_start_value"
     = Some (of_optional (SourceMeter._session_start_value m))
  /\ SourceMeter.to_dict m !! "session_start_measured_value"
     = Some (VDecimal (SourceMeter._session_start_measured_value m))
  /\ SourceMeter.to_dict m !! "source_value"
     = Some (of_optional (SourceMeter._source_value m)).
Proof.
  destruct (MeasureItMeter_to_dict_lookup (SourceMeter.base m))
    as (Hmv & Hpv & Hms).
  unfold SourceMeter.to_dict. cbv zeta.
  repeat apply conj;
    rewrite ?lookup_insert_ne by discriminate;
    first [assumption | apply lookup_insert_eq].
Qed.

Lemma TimeMeter_to_dict_lookup (m : TimeMeter.t D) :
  TimeMeter.to_dict m !! "measured_value"
  = Some (VDecimal (TimeMeter.measured_value m))
  /\ TimeMeter.to_dict m !! "prev_measured_value"
     = Some (VDecimal (TimeMeter.prev_measured_value m))
  /\ TimeMeter.to_dict m !! "measuring" = Some (VBool (TimeMeter.measuring m))
  /\ TimeMeter.to_dict m !! "session_start_value"
     = Some (VDecimal (TimeMeter._session_start_value m))
  /\ TimeMeter.to_dict m !! "session_start_measured_value"
     = Some (VDecimal (TimeMeter._session_start_measured_value m)).
Proof.
  destruct (MeasureItMeter_to_dict_lookup (TimeMeter.base m))
    as (Hmv & Hpv & Hms).
  unfold TimeMeter.to_dict. cbv zeta.
  repeat apply conj;
    rewrite ?lookup_insert_ne by discriminate;
    first [assumption | apply lookup_insert_eq].
Qed.

End Dictionaries.

(** * Restoring a meter *)

Section Restore.
Context {D : Type} `{!DecimalOps D}.

(** X19.  Restoring the dictionary of a meter [m] into a [CounterMeter] or
    a [TimeMeter] [x] returns and makes [x] equal to [m] in
    [measured_value], [prev_measured_value] and [measuring] (and in the
    two session fields of a [TimeMeter]).  The same holds for a
    [SourceMeter] [x] whose own reading is not true ([None] or zero) when
    [m] knows its [_source_value] and [_session_start_value]; when one of
    them is [None] the three fields are restored all the same and the
    call then raises a type error. *)
Theorem restore_serialize_roundtrip :
  (forall m x : CounterMeter.t D,
      CounterMeter.from_dict (CounterMeter.to_dict m) x = (Normal tt, m))
  /\ (forall m x : TimeMeter.t D,
      let r := TimeMeter.from_dict (TimeMeter.to_dict m) x in
      fst r = Normal tt
      /\ TimeMeter.measured_value (state_after r) = TimeMeter.measured_value m
      /\ TimeMeter.prev_measured_value (state_after r)
         = TimeMeter.prev_measured_value m
      /\ TimeMeter.measuring (state_after r) = TimeMeter.measuring m
      /\ TimeMeter._session_start_value (state_after r)
         = TimeMeter._session_start_value m
      /\ TimeMeter._session_start_measured_value (state_after r)
         = TimeMeter._session_start_measured_value m)
  /\ (forall m x : SourceMeter.t D,
      truthy (SourceMeter._source_value x) = false ->
      let r := SourceMeter.from_dict (SourceMeter.to_dict m) x in
      SourceMeter.measured_value (state_after r) = SourceMeter.measured_value m
      /\ SourceMeter.prev_measured_value (state_after r)
         = SourceMeter.prev_measured_value m
      /\ SourceMeter.measuring (state_after r) = SourceMeter.measuring m
      /\ match SourceMeter._session_start_value m, SourceMeter._source_value m with
         | Some _, Some _ =>
             fst r = Normal tt
             /\ SourceMeter._session_start_value (state_after r)
                = SourceMeter._session_start_value m
             /\ SourceMeter._session_start_measured_value (state_after r)
                = SourceMeter._session_start_measured_value m
             /\ SourceMeter._source_value (state_after r)
                = SourceMeter._source_value m
         | _, _ => fst r = Raised TypeError
         end).
Proof.
  split; [|split].
  - intros m x. open_meter m. open_meter x. reflexivity.
  - intros m x. open_meter m. open_meter x. cbv zeta. repeat apply conj; reflexivity.
  - intros m x Hlive. cbv zeta.
    destruct (SourceMeter_to_dict_lookup m)
      as (Hmv & Hpv & Hms & Hssv & Hssmv & Hsrc).
    destruct (SourceMeter._session_start_value m) as [ssv|] eqn:Essv.
    + rewrite (SourceMeter_from_dict_spec _ x _ _ _ _ _ Hmv Hpv Hms Hssv Hssmv).
      rewrite Hlive, Hsrc.
      destruct (SourceMeter._source_value m) as [src|];
        repeat apply conj; reflexivity.
    + open_meter m. simpl in Essv. subst.
      repeat apply conj; reflexivity.
Qed.

End Restore.

(** C5.  Restoring the dictionary a meter wrote must give the meter back.
    A [SourceMeter(None)], fresh or started, writes [None] under
    ["source_value"] (and, once started, under ["session_start_value"]);
    [from_dict] applies [Decimal(...)] to it, so restoring that dictionary
    into a [SourceMeter(None)] raises a type error instead of returning.
    The three base fields were restored before the raise. *)
Theorem source_restore_absent_reading :
  let m := SourceMeter.init None in
  let started := state_after (SourceMeter.start m) in
  let r := SourceMeter.from_dict (SourceMeter.to_dict m) (SourceMeter.init None) in
  let r' := SourceMeter.from_dict (SourceMeter.to_dict started)
              (SourceMeter.init None) in
  SourceMeter.to_dict m !! "source_value" = Some (VNone (D := PyDecimal.t))
  /\ fst r = Raised TypeError
  /\ SourceMeter.measured_value (state_after r) = SourceMeter.measured_value m
  /\ SourceMeter.prev_measured_value (state_after r)
     = SourceMeter.prev_measured_value m
  /\ SourceMeter.measuring (state_after r) = SourceMeter.measuring m
  /\ SourceMeter.to_dict started !! "session_start_value"
     = Some (VNone (D := PyDecimal.t))
  /\ fst r' = Raised TypeError
  /\ SourceMeter.measuring (state_after r') = true.
Proof. vm_compute. repeat split. Qed.

(** [restore_serialize_roundtrip] on a measuring source meter restored
    into a [SourceMeter(None)]. *)
Lemma restore_serialize_roundtrip_witness :
  let m := state_after (SourceMeter.update (Some (dec 110))
             (state_after (SourceMeter.start (SourceMeter.init (Some (dec 100)))))) in
  let r := SourceMeter.from_dict (SourceMeter.to_dict m) (SourceMeter.init None) in
  truthy (SourceMeter._source_value (SourceMeter.init (D := PyDecimal.t) None)) = false
  /\ fst r = Normal tt
  /\ SourceMeter.measured_value (state_after r) = dec 10
  /\ SourceMeter.measuring (state_after r) = true
  /\ SourceMeter._source_value (state_after r) = Some (dec 110).
Proof.
  cbv zeta. split; [reflexivity|].
  pose proof (proj2 (proj2 restore_serialize_roundtrip)
                (state_after (SourceMeter.update (Some (dec 110))
                   (state_after
                      (SourceMeter.start (SourceMeter.init (Some (dec 100)))))))
                (SourceMeter.init None) eq_refl) as H.
  cbv zeta in H. destruct H as (Hmv & _ & Hms & Hr & _ & _ & Hsrc).
  repeat apply conj; assumption.
Defined.

(** C4.  Restoring with a live reading must run [update] with it, also
    when the reading is 0.  The test [if self._source_value:] is false for
    [Decimal(0)] as it is for [None]: a [SourceMeter(0)] restored from the
    dictionary of a measuring meter (anchor 100, reading 110, value 10)
    takes the saved reading 110 and keeps the value 10, where [update(0)]
    on the restored fields gives reading 0 and value 0 + (0 - 100).  A
    live reading of 120 is used as the claim says. *)
Theorem source_restore_live_zero :
  let saved := state_after (SourceMeter.update (Some (dec 110))
                 (state_after (SourceMeter.start (SourceMeter.init (Some (dec 100)))))) in
  let data := SourceMeter.to_dict saved in
  let r0 := SourceMeter.from_dict data (SourceMeter.init (Some (dec 0))) in
  let r120 := SourceMeter.from_dict data (SourceMeter.init (Some (dec 120))) in
  let expected := SourceMeter.update (Some (dec 0)) (state_after r0) in
  fst r0 = Normal tt
  /\ SourceMeter._source_value (state_after r0) = Some (dec 110)
  /\ SourceMeter.measured_value (state_after r0) = dec 10
  /\ SourceMeter._source_value (state_after expected) = Some (dec 0)
  /\ SourceMeter.measured_value (state_after expected) = dec (-100)
  /\ SourceMeter._source_value (state_after r120) = Some (dec 120)
  /\ SourceMeter.measured_value (state_after r120) = dec 20.
Proof. vm_compute. repeat split. Qed.

(** * Further properties of the meters *)

Section RunProperties.
Context {D : Type} `{!DecimalOps D}.

Lemma run_app (a b : list (Meter.call D)) (m : Meter.t D) :
  Meter.run (a ++ b) m = Meter.run b (Meter.run a m).
Proof.
  revert m. induction a as [|c a IH]; intros m; [reflexivity|].
  simpl. apply IH.
Qed.

Lemma run_outcomes_app (a b : list (Meter.call D)) (m : Meter.t D) :
  run_outcomes (a ++ b) m
  = run_outcomes a m ++ run_outcomes b (Meter.run a m).
Proof.
  revert m. induction a as [|c a IH]; intros m; [reflexivity|].
  simpl. rewrite IH. reflexivity.
Qed.

(** One [update(v)] on a measuring counter: the sum is stored, or the
    signal of the addition is raised and the counter is left as it was. *)
Lemma CounterMeter_update_measuring (c : CounterMeter.t D) (v : D) :
  CounterMeter.measuring c = true ->
  CounterMeter.update (Some v) c
  = match dec_add_traps (CounterMeter.measured_value c) v with
    | Some signal => (Raised (DecimalException signal), c)
    | None =>
        (Normal tt,
         CounterMeter.mk
           (MeasureItMeter.set_measured_value
              (dec_add (CounterMeter.measured_value c) v) (CounterMeter.base c)))
    end.
Proof.
  open_meter c. intros Hm. cbv in Hm. subst.
  unfold CounterMeter.measured_value. cbn [CounterMeter.base MeasureItMeter._measured_value].
  destruct (dec_add_traps _measured_value v) eqn:Ht;
    exec; rewrite Ht; reflexivity.
Qed.

Lemma counter_sum_fold (m : D) (vs : list D) (total : D) :
  counter_sum m vs = Some total -> total = fold_left dec_add vs m.
Proof.
  revert m. induction vs as [|v vs IH]; intros m; cbn [counter_sum fold_left].
  - intros [= <-]. reflexivity.
  - destruct (dec_add_traps m v); [discriminate|]. apply IH.
Qed.

(** X1.  A started [CounterMeter] adds up the values it is given, in the
    order of the calls, as long as no addition signals: every call
    returns, the value is the sum, the flag stays on and
    [prev_measured_value] is kept.  An [update(v)] whose addition signals
    raises that signal and leaves the counter as it was. *)
Theorem counter_updates_accumulate (c : CounterMeter.t D) :
  CounterMeter.measuring c = true ->
  (forall (vs : list D) (total : D),
      counter_sum (CounterMeter.measured_value c) vs = Some total ->
      let m' := Meter.run (updates vs) (Meter.Counter c) in
      run_outcomes (updates vs) (Meter.Counter c)
      = repeat (Normal tt) (length vs)
      /\ Meter.measured_value m' = total
      /\ total = fold_left dec_add vs (CounterMeter.measured_value c)
      /\ Meter.measuring m' = true
      /\ Meter.prev_measured_value m' = CounterMeter.prev_measured_value c)
  /\ (forall (v : D) (signal : DecimalSignal),
      dec_add_traps (CounterMeter.measured_value c) v = Some signal ->
      CounterMeter.update (Some v) c = (Raised (DecimalException signal), c)).
Proof.
  intros Hm. split.
  - intros vs. revert c Hm. induction vs as [|v vs IH]; intros c Hm total Hsum;
      cbv zeta.
    + injection Hsum as <-. repeat apply conj; first [reflexivity | exact Hm].
    + pose proof (counter_sum_fold _ _ _ Hsum) as Hfold.
      cbn [counter_sum] in Hsum.
      pose proof (CounterMeter_update_measuring c v Hm) as Hstep.
      destruct (dec_add_traps (CounterMeter.measured_value c) v);
        [discriminate|].
      simpl. unfold Meter.update, Meter.dispatch. rewrite Hstep. simpl.
      match goal with |- context [Meter.Counter ?c1] =>
        destruct (IH c1) with (total := total) as (Ho & Hv & _ & Hf & Hp);
          [open_meter c; exact Hm | open_meter c; exact Hsum |]
      end.
      fold (updates vs). rewrite Ho.
      repeat apply conj; first [reflexivity | assumption].
  - intros v signal Ht. rewrite (CounterMeter_update_measuring c v Hm), Ht.
    reflexivity.
Qed.

(** X2.  [update] never touches the flag: after any run of [update] calls, on a
    meter of any class, with or without a value and whether or not calls
    raise, [measuring] is what it was. *)
Theorem update_keeps_measuring (calls : list (Meter.call D)) (m : Meter.t D) :
  forallb is_update calls = true ->
  Meter.measuring (Meter.run calls m) = Meter.measuring m.
Proof.
  revert m. induction calls as [|c calls IH]; intros m Hcalls; [reflexivity|].
  simpl in Hcalls. apply andb_prop in Hcalls as [Hc Hrest].
  simpl. rewrite (IH _ Hrest).
  destruct c as [| |v|]; try discriminate. destruct m as [c|s|w].
  - open_meter c. destruct _measuring, v; case_traps; reflexivity.
  - open_meter s.
    destruct _measuring, v, _session_start_value; case_traps; reflexivity.
  - open_meter w. destruct _measuring; reflexivity.
Qed.

(** X3.  [start()] returns for every class, turns the flag on and keeps both
    values; [stop()] leaves the flag off for every class, also when it
    raises. *)
Theorem start_stop_flag (m : Meter.t D) :
  (fst (Meter.start m) = Normal tt
   /\ Meter.measuring (state_after (Meter.start m)) = true
   /\ Meter.measured_value (state_after (Meter.start m)) = Meter.measured_value m
   /\ Meter.prev_measured_value (state_after (Meter.start m))
      = Meter.prev_measured_value m)
  /\ Meter.measuring (state_after (Meter.stop m)) = false.
Proof.
  destruct m as [c|s|w].
  - open_meter c. repeat apply conj; reflexivity.
  - open_meter s. repeat apply conj; try reflexivity.
    destruct _source_value, _session_start_value; case_traps; reflexivity.
  - open_meter w. repeat apply conj; reflexivity.
Qed.

(** X4.  [update] on an idle [CounterMeter] or [TimeMeter] returns and changes
    nothing, whatever the argument (an absent value included); the idle
    [TimeMeter] does not even read the clock. *)
Theorem idle_update_noop :
  (forall (c : CounterMeter.t D) (v : option D),
      CounterMeter.measuring c = false ->
      CounterMeter.update v c = (Normal tt, c))
  /\ (forall (w : TimeMeter.World D) (v : option D),
      TimeMeter.measuring (TimeMeter.meter w) = false ->
      TimeMeter.update v w = (Normal tt, w)).
Proof.
  split.
  - intros c v Hm. open_meter c. cbv in Hm. subst. reflexivity.
  - intros w v Hm. open_meter w. cbv in Hm. subst. reflexivity.
Qed.

End RunProperties.

(** * Sessions *)

Section Sessions.
Context {D : Type} `{!DecimalOps D}.

Lemma last_map_default {A B} (f : A -> B) (l : list A) (d : A) :
  List.last (map f l) (f d) = f (List.last l d).
Proof.
  induction l as [|a l IH]; [reflexivity|].
  simpl. destruct l as [|b l]; [reflexivity|]. exact IH.
Qed.

(** One [update] on a measuring [SourceMeter] with a known anchor keeps
    the flag, the anchor and the previous value, and records the
    reading, whether it returns or raises. *)
Lemma SourceMeter_update_keeps_anchor (s : SourceMeter.t D) (a : D)
    (v : option D) :
  SourceMeter.measuring s = true ->
  SourceMeter._session_start_value s = Some a ->
  let s' := state_after (SourceMeter.update v s) in
  SourceMeter.measuring s' = true
  /\ SourceMeter._session_start_value s' = Some a
  /\ SourceMeter._session_start_measured_value s'
     = SourceMeter._session_start_measured_value s
  /\ SourceMeter.prev_measured_value s' = SourceMeter.prev_measured_value s
  /\ SourceMeter._source_value s' = v.
Proof.
  open_meter s. intros Hm Ha. cbv in Hm. simpl in Ha. subst.
  destruct v; case_traps; repeat apply conj; reflexivity.
Qed.

(** When the arithmetic of the reading does not signal, the call returns
    and stores the session value. *)
Lemma SourceMeter_update_measuring (s : SourceMeter.t D) (a v : D) :
  SourceMeter.measuring s = true ->
  SourceMeter._session_start_value s = Some a ->
  SourceMeter.session_signal (SourceMeter._session_start_measured_value s) a v
  = None ->
  let r := SourceMeter.update (Some v) s in
  fst r = Normal tt
  /\ SourceMeter.measured_value (state_after r)
     = dec_add (SourceMeter._session_start_measured_value s) (dec_sub v a).
Proof.
  open_meter s. intros Hm Ha. cbv in Hm. simpl in Ha. subst.
  unfold SourceMeter.session_signal.
  cbn [SourceMeter._session_start_measured_value].
  intros Hsig. exec.
  destruct (dec_sub_traps v a); [discriminate|].
  rewrite Hsig. split; reflexivity.
Qed.

(** A run of [update] calls on a measuring [SourceMeter], with or without
    values and whether or not they raise, keeps the anchor, the flag and
    the previous value; the reading is that of the last call. *)
Lemma source_updates_run (s : SourceMeter.t D) (a : D) (vs : list (option D)) :
  SourceMeter.measuring s = true ->
  SourceMeter._session_start_value s = Some a ->
  exists s',
    Meter.run (map Meter.Update vs) (Meter.Source s) = Meter.Source s'
    /\ SourceMeter.measuring s' = true
    /\ SourceMeter._session_start_value s' = Some a
    /\ SourceMeter._session_start_measured_value s'
       = SourceMeter._session_start_measured_value s
    /\ SourceMeter.prev_measured_value s' = SourceMeter.prev_measured_value s
    /\ SourceMeter._source_value s'
       = List.last vs (SourceMeter._source_value s).
Proof.
  intros Hm Ha. induction vs as [|v vs IH] using rev_ind.
  - exists s. repeat apply conj; first [reflexivity | assumption].
  - destruct IH as (s1 & Hrun & Hm1 & Ha1 & Hssmv & Hpv & _).
    destruct (SourceMeter_update_keeps_anchor s1 a v Hm1 Ha1)
      as (Hm2 & Ha2 & Hssmv2 & Hpv2 & Hsrc2).
    rewrite map_app, run_app, Hrun. simpl.
    unfold Meter.update, Meter.dispatch, state_after in *.
    destruct (SourceMeter.update v s1) as [r s2]. simpl in *.
    exists s2. rewrite List.last_last.
    repeat apply conj; congruence.
Qed.

(** X5.  While a [SourceMeter] measures, the value after an [update(v)]
    whose arithmetic does not signal is the anchor value plus the
    distance of [v] from the anchor reading, whatever [update] calls came
    before it in the session, with or without a value, returned or
    raised: earlier readings leave no trace. *)
Theorem source_updates_last_reading (s : SourceMeter.t D) (a v : D)
    (vs : list (option D)) :
  SourceMeter.measuring s = true ->
  SourceMeter._session_start_value s = Some a ->
  SourceMeter.session_signal (SourceMeter._session_start_measured_value s) a v
  = None ->
  let calls := map Meter.Update (vs ++ [Some v]) in
  let m' := Meter.run calls (Meter.Source s) in
  List.last (run_outcomes calls (Meter.Source s)) (Raised TypeError)
  = Normal tt
  /\ Meter.measured_value m'
     = dec_add (SourceMeter._session_start_measured_value s) (dec_sub v a)
  /\ Meter.measuring m' = true
  /\ Meter.prev_measured_value m' = SourceMeter.prev_measured_value s.
Proof.
  intros Hm Ha Hsig. cbv zeta.
  destruct (source_updates_run s a vs Hm Ha)
    as (s1 & Hrun & Hm1 & Ha1 & Hssmv1 & Hpv1 & _).
  rewrite <- Hssmv1 in Hsig.
  destruct (SourceMeter_update_measuring s1 a v Hm1 Ha1 Hsig) as (Hr & Hmv).
  destruct (SourceMeter_update_keeps_anchor s1 a (Some v) Hm1 Ha1)
    as (Hm2 & _ & _ & Hpv2 & _).
  rewrite map_app, run_app, run_outcomes_app, Hrun.
  cbn [map Meter.run run_outcomes Meter.perform].
  unfold Meter.update, Meter.dispatch, state_after in *.
  destruct (SourceMeter.update (Some v) s1) as [r s2]. cbn [fst snd] in *.
  rewrite List.last_last.
  cbn [Meter.measured_value Meter.measuring Meter.prev_measured_value].
  repeat apply conj; congruence.
Qed.

(** X6.  A whole session of a [SourceMeter] whose reading is known:
    [start()], any [update(v)] calls, [stop()].  Whatever state the meter
    was in, and whether or not some of the updates raised, when the
    arithmetic of the last reading does not signal [stop()] returns and
    the session has added to the value before [start()] the distance
    from the reading at [start()] to the last reading. *)
Theorem source_session (s : SourceMeter.t D) (src : D) (vs : list D) :
  SourceMeter._source_value s = Some src ->
  SourceMeter.session_signal (SourceMeter.measured_value s) src
    (List.last vs src) = None ->
  let calls := Meter.Start :: updates vs ++ [Meter.Stop] in
  let m' := Meter.run calls (Meter.Source s) in
  List.hd (Raised TypeError) (run_outcomes calls (Meter.Source s)) = Normal tt
  /\ List.last (run_outcomes calls (Meter.Source s)) (Raised TypeError)
     = Normal tt
  /\ Meter.measured_value m'
     = dec_add (SourceMeter.measured_value s)
               (dec_sub (List.last vs src) src)
  /\ Meter.measuring m' = false
  /\ Meter.prev_measured_value m' = SourceMeter.prev_measured_value s.
Proof.
  intros Hsrc Hsig. cbv zeta.
  pose (s1 := state_after (SourceMeter.start s)).
  assert (Hstart : Meter.perform Meter.Start (Meter.Source s)
                   = (Normal tt, Meter.Source s1)).
  { subst s1. open_meter s. reflexivity. }
  assert (Hs1 : SourceMeter.measuring s1 = true
                /\ SourceMeter._session_start_value s1 = Some src
                /\ SourceMeter._session_start_measured_value s1
                   = SourceMeter.measured_value s
                /\ SourceMeter.prev_measured_value s1
                   = SourceMeter.prev_measured_value s
                /\ SourceMeter._source_value s1 = Some src).
  { subst s1. open_meter s. simpl in Hsrc. subst.
    repeat apply conj; reflexivity. }
  destruct Hs1 as (Hm1 & Ha1 & Hssmv1 & Hpv1 & Hsrc1).
  destruct (source_updates_run s1 src (map Some vs) Hm1 Ha1)
    as (s2 & Hrun & _ & Ha2 & Hssmv2 & Hpv2 & Hsrc2).
  rewrite Hsrc1, last_map_default in Hsrc2.
  assert (Hv : SourceMeter.session_value s2
               = inr (dec_add (SourceMeter.measured_value s)
                              (dec_sub (List.last vs src) src))).
  { unfold SourceMeter.session_value.
    rewrite Hsrc2, Ha2, Hssmv2, Hssmv1, Hsig. reflexivity. }
  destruct (SourceMeter_stop_defined s2 _ Hv) as (Hr & Hmv & Hpv & Hm3 & _).
  assert (Hupd : updates vs = map Meter.Update (map Some vs)).
  { unfold updates. rewrite map_map. reflexivity. }
  cbn [Meter.run run_outcomes]. rewrite Hstart. cbn [fst state_after snd hd].
  rewrite run_app, run_outcomes_app, Hupd, Hrun.
  cbn [Meter.run run_outcomes Meter.perform].
  unfold Meter.stop, Meter.dispatch, state_after in *.
  destruct (SourceMeter.stop s2) as [r s3]. cbn [fst snd] in *.
  rewrite app_comm_cons, List.last_last.
  cbn [Meter.measured_value Meter.measuring Meter.prev_measured_value].
  repeat apply conj; congruence.
Qed.

End Sessions.

Section TimeSessions.
Context {D : Type} `{!DecimalOps D}.

(** One tick of a measuring [TimeMeter]. *)
Lemma TimeMeter_update_measuring (w : TimeMeter.World D) (v : option D) :
  TimeMeter.measuring (TimeMeter.meter w) = true ->
  let r := TimeMeter.update v w in
  fst r = Normal tt
  /\ TimeMeter.measuring (TimeMeter.meter (state_after r)) = true
  /\ TimeMeter._session_start_value (TimeMeter.meter (state_after r))
     = TimeMeter._session_start_value (TimeMeter.meter w)
  /\ TimeMeter._session_start_measured_value (TimeMeter.meter (state_after r))
     = TimeMeter._session_start_measured_value (TimeMeter.meter w)
  /\ TimeMeter.prev_measured_value (TimeMeter.meter (state_after r))
     = TimeMeter.prev_measured_value (TimeMeter.meter w)
  /\ (forall k, TimeMeter.utcnow (state_after r) k = TimeMeter.utcnow w (S k))
  /\ TimeMeter.measured_value (TimeMeter.meter (state_after r))
     = TimeMeter.session_value (TimeMeter.utcnow w 0%nat) (TimeMeter.meter w).
Proof.
  open_meter w. intros Hm. cbv in Hm. subst. repeat apply conj; reflexivity.
Qed.

(** A run of ticks on a measuring [TimeMeter] keeps the anchor, the flag
    and the previous value, and reads the clock once per tick. *)
Lemma time_ticks_run (n : nat) (w : TimeMeter.World D) :
  TimeMeter.measuring (TimeMeter.meter w) = true ->
  exists w',
    Meter.run (ticks n) (Meter.Time w) = Meter.Time w'
    /\ run_outcomes (ticks n) (Meter.Time w) = repeat (Normal tt) n
    /\ TimeMeter.measuring (TimeMeter.meter w') = true
    /\ TimeMeter._session_start_value (TimeMeter.meter w')
       = TimeMeter._session_start_value (TimeMeter.meter w)
    /\ TimeMeter._session_start_measured_value (TimeMeter.meter w')
       = TimeMeter._session_start_measured_value (TimeMeter.meter w)
    /\ TimeMeter.prev_measured_value (TimeMeter.meter w')
       = TimeMeter.prev_measured_value (TimeMeter.meter w)
    /\ (forall k, TimeMeter.utcnow w' k = TimeMeter.utcnow w (n + k)%nat)
    /\ TimeMeter.measured_value (TimeMeter.meter w')
       = match n with
         | O => TimeMeter.measured_value (TimeMeter.meter w)
         | S n' => TimeMeter.session_value (TimeMeter.utcnow w n')
                                           (TimeMeter.meter w)
         end.
Proof.
  revert w. induction n as [|n IH]; intros w Hm.
  - exists w. repeat apply conj; first [reflexivity | assumption].
  - destruct (TimeMeter_update_measuring w None Hm)
      as (Hr & Hm1 & Ha1 & Hssmv1 & Hpv1 & Hclk1 & Hmv1).
    unfold ticks in *. simpl.
    unfold Meter.update, Meter.dispatch, state_after in *.
    destruct (TimeMeter.update None w) as [r w1]. simpl in *.
    destruct (IH w1 Hm1) as (w' & Hrun & Hout & Hm' & Ha' & Hssmv' & Hpv' & Hclk' & Hmv').
    exists w'. rewrite Hrun, Hout, Hr.
    split; [reflexivity|]. split; [reflexivity|]. split; [exact Hm'|].
    split; [congruence|]. split; [congruence|]. split; [congruence|]. split.
    + intros k. rewrite Hclk', Hclk1. reflexivity.
    + rewrite Hmv'. destruct n as [|n']; [exact Hmv1|].
      unfold TimeMeter.session_value. rewrite Ha1, Hssmv1, Hclk1. reflexivity.
Qed.



End TimeSessions.

(** * A source meter around [start] and [reset] *)

Section SourceAnchors.
Context {D : Type} `{!DecimalOps D}.

(** X9.  A [SourceMeter] that was started while its reading was unknown has no
    anchor.  From then on every [update], with or without a value, raises
    a type error and leaves the value where it was; [stop()] and [reset()]
    raise as well.  Only a new [start()] ends this. *)
Theorem source_absent_anchor_stuck (s : SourceMeter.t D) (vs : list (option D)) :
  SourceMeter.measuring s = true ->
  SourceMeter._session_start_value s = None ->
  let calls := map Meter.Update vs in
  let m' := Meter.run calls (Meter.Source s) in
  run_outcomes calls (Meter.Source s) = repeat (Raised TypeError) (length vs)
  /\ Meter.measured_value m' = SourceMeter.measured_value s
  /\ Meter.prev_measured_value m' = SourceMeter.prev_measured_value s
  /\ Meter.measuring m' = true
  /\ fst (Meter.stop m') = Raised TypeError
  /\ fst (Meter.reset m') = Raised TypeError.
Proof.
  revert s. induction vs as [|v vs IH]; intros s Hm Ha; cbv zeta.
  - open_meter s. cbv in Hm. simpl in Ha. subst.
    repeat apply conj; try reflexivity;
      destruct _source_value; reflexivity.
  - assert (Hstep : Meter.perform (Meter.Update v) (Meter.Source s)
                    = (Raised TypeError,
                       Meter.Source (SourceMeter.set_source_value v s))).
    { open_meter s. cbv in Hm. simpl in Ha. subst. destruct v; reflexivity. }
    cbn [map Meter.run run_outcomes length repeat]. rewrite Hstep.
    cbn [fst snd state_after].
    destruct (IH (SourceMeter.set_source_value v s)) as (Ho & Hrest).
    { open_meter s. exact Hm. }
    { open_meter s. exact Ha. }
    rewrite Ho. split; [reflexivity|].
    open_meter s. exact Hrest.
Qed.

(** X10.  [reset()] on a measuring [SourceMeter] with a known reading and
    anchor, when the arithmetic of the session does not signal: the
    folded value is saved and the meter keeps measuring.  The next
    [update(v)], when its arithmetic does not signal either, counts from
    zero at the reading the meter had at the reset. *)
Theorem source_reset_then_update (s : SourceMeter.t D) (src a v : D) :
  SourceMeter.measuring s = true ->
  SourceMeter._source_value s = Some src ->
  SourceMeter._session_start_value s = Some a ->
  SourceMeter.session_signal (SourceMeter._session_start_measured_value s) a src
  = None ->
  SourceMeter.session_signal (Decimal_of_int 0) src v = None ->
  let r1 := SourceMeter.reset s in
  let r2 := SourceMeter.update (Some v) (state_after r1) in
  fst r1 = Normal tt
  /\ fst r2 = Normal tt
  /\ SourceMeter.measuring (state_after r2) = true
  /\ SourceMeter.prev_measured_value (state_after r2)
     = dec_add (SourceMeter._session_start_measured_value s) (dec_sub src a)
  /\ SourceMeter.measured_value (state_after r2)
     = dec_add (Decimal_of_int 0) (dec_sub v src).
Proof.
  open_meter s. intros Hm Hsrc Ha. cbv in Hm. simpl in Hsrc, Ha. subst.
  unfold SourceMeter.session_signal.
  cbn [SourceMeter._session_start_measured_value].
  intros H1 H2. exec.
  destruct (dec_sub_traps src a); [discriminate|]. rewrite H1. exec.
  destruct (dec_sub_traps v src); [discriminate|]. rewrite H2.
  repeat apply conj; reflexivity.
Qed.

(** X11.  A reading given to an idle [SourceMeter] becomes the anchor of
    the next session: [update(v)] and [start()] return and do not change
    the value, and after [update(v')], when its arithmetic does not
    signal, the value has grown by [v' - v]. *)
Theorem source_idle_update_then_start (s : SourceMeter.t D) (v v' : D) :
  SourceMeter.measuring s = false ->
  SourceMeter.session_signal (SourceMeter.measured_value s) v v' = None ->
  let r1 := SourceMeter.update (Some v) s in
  let r2 := SourceMeter.start (state_after r1) in
  let r3 := SourceMeter.update (Some v') (state_after r2) in
  map fst [r1; r2; r3] = repeat (Normal tt) 3
  /\ SourceMeter.measured_value (state_after r2) = SourceMeter.measured_value s
  /\ SourceMeter._session_start_value (state_after r2) = Some v
  /\ SourceMeter.measured_value (state_after r3)
     = dec_add (SourceMeter.measured_value s) (dec_sub v' v).
Proof.
  open_meter s. intros Hm. cbv in Hm. subst.
  unfold SourceMeter.session_signal, SourceMeter.measured_value.
  cbn [SourceMeter.base MeasureItMeter._measured_value].
  intros Hsig. exec.
  destruct (dec_sub_traps v' v); [discriminate|]. rewrite Hsig.
  repeat apply conj; reflexivity.
Qed.


End SourceAnchors.

(** * Dictionaries: keys, missing keys, restoring with a live reading *)

Section DictionaryEdges.
Context {D : Type} `{!DecimalOps D}.

(** X13.  The keys written by [to_dict]: three for a [CounterMeter], the two
    session fields in addition for a [TimeMeter], and ["source_value"] on
    top of those for a [SourceMeter].  [_session_total] is never
    written. *)
Theorem to_dict_keys :
  (forall c : CounterMeter.t D,
      dom (CounterMeter.to_dict c)
      = ({["measured_value"; "prev_measured_value"; "measuring"]} : gset string))
  /\ (forall t : TimeMeter.t D,
      dom (TimeMeter.to_dict t)
      = ({["measured_value"; "prev_measured_value"; "measuring";
           "session_start_value"; "session_start_measured_value"]}
         : gset string))
  /\ (forall s : SourceMeter.t D,
      dom (SourceMeter.to_dict s)
      = ({["measured_value"; "prev_measured_value"; "measuring";
           "session_start_value"; "session_start_measured_value";
           "source_value"]} : gset string)).
Proof.
  repeat apply conj; intros m;
    unfold CounterMeter.to_dict, TimeMeter.to_dict, SourceMeter.to_dict,
      MeasureItMeter.to_dict; cbv zeta;
    rewrite !dom_insert_L, dom_empty_L; set_solver.
Qed.

(** X14.  [from_dict] on a dictionary without ["measured_value"] (the empty
    dictionary, say) raises [KeyError] for that key and leaves the meter
    as it was, for each class. *)
Theorem from_dict_without_measured_value (data : gmap string (PyValue D)) :
  data !! "measured_value" = None ->
  (forall c : CounterMeter.t D,
      CounterMeter.from_dict data c = (Raised (KeyError "measured_value"), c))
  /\ (forall s : SourceMeter.t D,
      SourceMeter.from_dict data s = (Raised (KeyError "measured_value"), s))
  /\ (forall t : TimeMeter.t D,
      TimeMeter.from_dict data t = (Raised (KeyError "measured_value"), t)).
Proof.
  intros Hmv.
  assert (Hbase : forall b : MeasureItMeter.t D,
             MeasureItMeter.from_dict data b
             = (Raised (KeyError "measured_value"), b)).
  { intros b. unfold MeasureItMeter.from_dict, bind, getitem.
    rewrite Hmv. reflexivity. }
  repeat apply conj; intros m.
  - unfold CounterMeter.from_dict, CounterMeter.super, zoom.
    rewrite Hbase. open_meter m. reflexivity.
  - unfold SourceMeter.from_dict, SourceMeter.super, zoom, bind at 1.
    rewrite Hbase. open_meter m. reflexivity.
  - unfold TimeMeter.from_dict, TimeMeter.super, zoom, bind at 1.
    rewrite Hbase. open_meter m. reflexivity.
Qed.


End DictionaryEdges.

Section LiveReading.
Context {D : Type} `{!DecimalOps D}.

(** X16.  A [SourceMeter] whose own reading is true (known and not zero) never
    looks at ["source_value"] when restoring: the outcome and the restored
    meter are the same if the key is removed from the dictionary. *)
Theorem source_from_dict_live_skips_saved_reading
    (data : gmap string (PyValue D)) (x : SourceMeter.t D) :
  truthy (SourceMeter._source_value x) = true ->
  SourceMeter.from_dict data x
  = SourceMeter.from_dict (delete "source_value" data) x.
Proof.
  intros Hlive.
  unfold SourceMeter.from_dict, SourceMeter.super, zoom,
    MeasureItMeter.from_dict, bind, getitem.
  rewrite !(lookup_delete_ne data "source_value") by discriminate.
  open_meter x. simpl in Hlive. cbn [SourceMeter.base].
  destruct (data !! "measured_value") as [[?|?|]|]; try reflexivity;
    destruct (data !! "prev_measured_value") as [[?|?|]|]; try reflexivity;
    destruct (data !! "measuring") as [?|]; try reflexivity;
    destruct (data !! "session_start_value") as [[?|?|]|]; try reflexivity;
    destruct (data !! "session_start_measured_value") as [[?|?|]|];
    try reflexivity;
    simpl; rewrite Hlive; reflexivity.
Qed.

(** X17.  Restoring the dictionary of [m] into a [SourceMeter] built with a
    reading [r] that is true, when [m] was idle or the arithmetic of [r]
    against [m]'s anchor does not signal: the call returns, the flag, the
    previous value and the anchor come from [m], the reading is [r], and
    the value is recomputed against [r] when [m] was measuring and is
    [m]'s value otherwise.  The reading saved in the dictionary is not
    used. *)
Theorem source_restore_reconciles (m x : SourceMeter.t D) (r a : D) :
  SourceMeter._source_value x = Some r ->
  dec_bool r = true ->
  SourceMeter._session_start_value m = Some a ->
  (SourceMeter.measuring m = true ->
   SourceMeter.session_signal (SourceMeter._session_start_measured_value m) a r
   = None) ->
  let res := SourceMeter.from_dict (SourceMeter.to_dict m) x in
  fst res = Normal tt
  /\ SourceMeter._source_value (state_after res) = Some r
  /\ SourceMeter.measuring (state_after res) = SourceMeter.measuring m
  /\ SourceMeter.prev_measured_value (state_after res)
     = SourceMeter.prev_measured_value m
  /\ SourceMeter._session_start_value (state_after res) = Some a
  /\ SourceMeter.measured_value (state_after res)
     = if SourceMeter.measuring m
       then dec_add (SourceMeter._session_start_measured_value m) (dec_sub r a)
       else SourceMeter.measured_value m.
Proof.
  intros Hx Hr Ha Hsig. cbv zeta.
  destruct (SourceMeter_to_dict_lookup m)
    as (Hmv & Hpv & Hms & Hssv & Hssmv & _).
  rewrite Ha in Hssv.
  rewrite (SourceMeter_from_dict_spec _ x _ _ _ _ _ Hmv Hpv Hms Hssv Hssmv).
  rewrite Hx. simpl truthy. rewrite Hr.
  open_meter m. simpl in Ha. subst.
  destruct _measuring; [|repeat apply conj; reflexivity].
  specialize (Hsig eq_refl). unfold SourceMeter.session_signal in Hsig.
  cbn [SourceMeter._session_start_measured_value] in Hsig.
  unfold py_bool. exec.
  destruct (dec_sub_traps r a); [discriminate|]. rewrite Hsig.
  repeat apply conj; reflexivity.
Qed.


End LiveReading.

(** * The further properties on Python decimals *)

(** [counter_updates_accumulate] on a started counter given 5 and 3, and
    on a counter that holds 9.000000000000000000000000000E+999999 (its
    value after [update(9E+999999)]) given 9E+999999 again. *)
Lemma counter_updates_accumulate_witness :
  let c := state_after (CounterMeter.start CounterMeter.init) in
  let big := PyDecimal.mk false 9 999999 in
  let held := PyDecimal.mk false 9000000000000000000000000000 999972 in
  let full := CounterMeter.mk (MeasureItMeter.mk held (dec 0) true) in
  CounterMeter.measuring c = true
  /\ counter_sum (CounterMeter.measured_value c) [dec 5; dec 3] = Some (dec 8)
  /\ Meter.measured_value
       (Meter.run (updates [dec 5; dec 3]) (Meter.Counter c)) = dec 8
  /\ PyDecimal.add_traps held big = Some Overflow
  /\ CounterMeter.update (Some big) full
     = (Raised (DecimalException Overflow), full).
Proof.
  cbv zeta. split; [reflexivity|]. split; [reflexivity|]. split.
  - exact (proj1 (proj2 (proj1 (counter_updates_accumulate
                                  (state_after (CounterMeter.start CounterMeter.init))
                                  eq_refl)
                                [dec 5; dec 3] (dec 8) eq_refl))).
  - split; [reflexivity|].
    refine (proj2 (counter_updates_accumulate
                     (CounterMeter.mk
                        (MeasureItMeter.mk
                           (PyDecimal.mk false 9000000000000000000000000000 999972)
                           (dec 0) true))
                     eq_refl) _ _ _).
    reflexivity.
Defined.

(** [update_keeps_measuring] on a started source meter, through one call
    that returns and one that raises. *)
Lemma update_keeps_measuring_witness :
  let m := Meter.Source
             (state_after (SourceMeter.start (SourceMeter.init (Some (dec 100))))) in
  let calls := [Meter.Update (Some (dec 110)); Meter.Update None] in
  forallb is_update calls = true
  /\ Meter.measuring (Meter.run calls m) = true.
Proof.
  cbv zeta. split; [reflexivity|].
  rewrite update_keeps_measuring; reflexivity.
Defined.

(** [idle_update_noop] on a fresh counter and a fresh time meter. *)
Lemma idle_update_noop_witness :
  let w := TimeMeter.at_time (dec 10) TimeMeter.init in
  CounterMeter.measuring (CounterMeter.init (D := PyDecimal.t)) = false
  /\ TimeMeter.measuring (TimeMeter.meter w) = false
  /\ CounterMeter.update None CounterMeter.init = (Normal tt, CounterMeter.init)
  /\ TimeMeter.update None w = (Normal tt, w).
Proof.
  cbv zeta. split; [reflexivity|]. split; [reflexivity|]. split.
  - apply (proj1 idle_update_noop). reflexivity.
  - apply (proj2 idle_update_noop). reflexivity.
Defined.

(** [source_updates_last_reading] on a meter anchored at 100 that is
    given 110, then no value, then 130. *)
Lemma source_updates_last_reading_witness :
  let s := state_after (SourceMeter.start (SourceMeter.init (Some (dec 100)))) in
  let calls := map Meter.Update ([Some (dec 110); None] ++ [Some (dec 130)]) in
  SourceMeter.measuring s = true
  /\ SourceMeter._session_start_value s = Some (dec 100)
  /\ SourceMeter.session_signal
       (SourceMeter._session_start_measured_value s) (dec 100) (dec 130) = None
  /\ run_outcomes calls (Meter.Source s)
     = [Normal tt; Raised TypeError; Normal tt]
  /\ Meter.measured_value (Meter.run calls (Meter.Source s)) = dec 30.
Proof.
  cbv zeta. split; [reflexivity|]. split; [reflexivity|].
  split; [reflexivity|]. split; [reflexivity|].
  exact (proj1 (proj2 (source_updates_last_reading
                         (state_after
                            (SourceMeter.start (SourceMeter.init (Some (dec 100)))))
                         (dec 100) (dec 130) [Some (dec 110); None]
                         eq_refl eq_refl eq_refl))).
Defined.

(** [source_session] on a [SourceMeter(100)] that reads 110 and 150. *)
Lemma source_session_witness :
  let s := SourceMeter.init (Some (dec 100)) in
  let calls := Meter.Start :: updates [dec 110; dec 150] ++ [Meter.Stop] in
  SourceMeter._source_value s = Some (dec 100)
  /\ SourceMeter.session_signal (SourceMeter.measured_value s) (dec 100)
       (List.last [dec 110; dec 150] (dec 100)) = None
  /\ Meter.measured_value (Meter.run calls (Meter.Source s)) = dec 50
  /\ Meter.measuring (Meter.run calls (Meter.Source s)) = false.
Proof.
  cbv zeta. split; [reflexivity|]. split; [reflexivity|].
  pose proof (source_session (SourceMeter.init (Some (dec 100))) (dec 100)
                [dec 110; dec 150] eq_refl eq_refl) as H.
  cbv zeta in H. destruct H as (_ & _ & Hmv & Hm & _).
  split; [exact Hmv | exact Hm].
Defined.


(** [source_absent_anchor_stuck] on a [SourceMeter(None)] after
    [start()]. *)
Lemma source_absent_anchor_stuck_witness :
  let s := state_after (SourceMeter.start (SourceMeter.init None)) in
  let calls := map Meter.Update [Some (dec 110); None] in
  SourceMeter.measuring s = true
  /\ SourceMeter._session_start_value s = None
  /\ run_outcomes calls (Meter.Source s) = [Raised TypeError; Raised TypeError]
  /\ Meter.measured_value (Meter.run calls (Meter.Source s)) = dec 0.
Proof.
  cbv zeta. split; [reflexivity|]. split; [reflexivity|].
  pose proof (source_absent_anchor_stuck
                (state_after (SourceMeter.start (SourceMeter.init None)))
                [Some (dec 110); None] eq_refl eq_refl) as H.
  cbv zeta in H. destruct H as (Ho & Hmv & _).
  split; [exact Ho | exact Hmv].
Defined.

(** [source_reset_then_update] on a meter anchored at 100 reading 110,
    then reading 130 after the reset. *)
Lemma source_reset_then_update_witness :
  let s := state_after (SourceMeter.update (Some (dec 110))
             (state_after (SourceMeter.start (SourceMeter.init (Some (dec 100)))))) in
  let r2 := SourceMeter.update (Some (dec 130))
              (state_after (SourceMeter.reset s)) in
  SourceMeter.measuring s = true
  /\ SourceMeter._source_value s = Some (dec 110)
  /\ SourceMeter._session_start_value s = Some (dec 100)
  /\ SourceMeter.session_signal
       (SourceMeter._session_start_measured_value s) (dec 100) (dec 110) = None
  /\ SourceMeter.session_signal (dec 0) (dec 110) (dec 130) = None
  /\ SourceMeter.prev_measured_value (state_after r2) = dec 10
  /\ SourceMeter.measured_value (state_after r2) = dec 20.
Proof.
  cbv zeta. split; [reflexivity|]. split; [reflexivity|]. split; [reflexivity|].
  split; [reflexivity|]. split; [reflexivity|].
  pose proof (source_reset_then_update
                (state_after (SourceMeter.update (Some (dec 110))
                   (state_after
                      (SourceMeter.start (SourceMeter.init (Some (dec 100)))))))
                (dec 110) (dec 100) (dec 130)
                eq_refl eq_refl eq_refl eq_refl eq_refl) as H.
  cbv zeta in H. destruct H as (_ & _ & _ & Hpv & Hmv).
  split; [exact Hpv | exact Hmv].
Defined.

(** [source_idle_update_then_start] on a [SourceMeter(100)]. *)
Lemma source_idle_update_then_start_witness :
  let s := SourceMeter.init (Some (dec 100)) in
  let s2 := state_after (SourceMeter.start
              (state_after (SourceMeter.update (Some (dec 150)) s))) in
  SourceMeter.measuring s = false
  /\ SourceMeter.session_signal (SourceMeter.measured_value s) (dec 150) (dec 170)
     = None
  /\ SourceMeter._session_start_value s2 = Some (dec 150)
  /\ SourceMeter.measured_value
       (state_after (SourceMeter.update (Some (dec 170)) s2)) = dec 20.
Proof.
  cbv zeta. split; [reflexivity|]. split; [reflexivity|].
  pose proof (source_idle_update_then_start
                (SourceMeter.init (Some (dec 100))) (dec 150) (dec 170)
                eq_refl eq_refl)
    as H.
  cbv zeta in H. destruct H as (_ & _ & Ha & Hmv).
  split; [exact Ha | exact Hmv].
Defined.


(** [from_dict_without_measured_value] on the empty dictionary. *)
Lemma from_dict_without_measured_value_witness :
  (∅ : gmap string (PyValue PyDecimal.t)) !! "measured_value" = None
  /\ SourceMeter.from_dict ∅ (SourceMeter.init (Some (dec 100)))
     = (Raised (KeyError "measured_value"), SourceMeter.init (Some (dec 100))).
Proof.
  split; [reflexivity|].
  refine (proj1 (proj2 (from_dict_without_measured_value ∅ _)) _).
  reflexivity.
Defined.


(** [source_from_dict_live_skips_saved_reading]: a [SourceMeter(120)]
    restored from the dictionary of a measuring meter. *)
Lemma source_from_dict_live_skips_saved_reading_witness :
  let data := SourceMeter.to_dict
                (state_after (SourceMeter.update (Some (dec 110))
                   (state_after
                      (SourceMeter.start (SourceMeter.init (Some (dec 100))))))) in
  let x := SourceMeter.init (Some (dec 120)) in
  truthy (SourceMeter._source_value x) = true
  /\ delete "source_value" data !! "source_value" = None
  /\ SourceMeter.from_dict data x
     = SourceMeter.from_dict (delete "source_value" data) x.
Proof.
  cbv zeta. split; [reflexivity|]. split; [reflexivity|].
  apply source_from_dict_live_skips_saved_reading. reflexivity.
Defined.

(** [source_restore_reconciles]: anchor 100, saved reading 110, live
    reading 120. *)
Lemma source_restore_reconciles_witness :
  let m := state_after (SourceMeter.update (Some (dec 110))
             (state_after (SourceMeter.start (SourceMeter.init (Some (dec 100)))))) in
  let x := SourceMeter.init (Some (dec 120)) in
  SourceMeter._source_value x = Some (dec 120)
  /\ PyDecimal.to_bool (dec 120) = true
  /\ SourceMeter._session_start_value m = Some (dec 100)
  /\ SourceMeter.session_signal
       (SourceMeter._session_start_measured_value m) (dec 100) (dec 120) = None
  /\ SourceMeter.measured_value
       (state_after (SourceMeter.from_dict (SourceMeter.to_dict m) x)) = dec 20.
Proof.
  cbv zeta. split; [reflexivity|]. split; [reflexivity|]. split; [reflexivity|].
  split; [reflexivity|].
  pose proof (source_restore_reconciles
                (state_after (SourceMeter.update (Some (dec 110))
                   (state_after
                      (SourceMeter.start (SourceMeter.init (Some (dec 100)))))))
                (SourceMeter.init (Some (dec 120))) (dec 120) (dec 100)
                eq_refl eq_refl eq_refl (fun _ => eq_refl)) as H.
  cbv zeta in H. destruct H as (_ & _ & _ & _ & _ & Hmv). exact Hmv.
Defined.

